(** * Word-MCP-Server: the document tools of [word_mcp_server.py]

    A shallow embedding of the nine tools the server registers
    ([read_document], [get_document_info], [list_documents],
    [copy_document], [create_document], [write_text], [add_heading],
    [replace_text], [export_to_pdf]) and of the two helpers they share
    ([ensure_docx_extension], [check_file_exists]).

    - Python [str] values are [string]s: sequences of code points below 256.
    - The file system is a finite map from path names to file contents.
    - The document library and the converter process are outside the
      repository; their interface is the record [Library].
    - A tool body is a computation in the monad [IO]: it threads the file
      system and may raise; the [try]/[except] of every tool turns an
      exception into the returned string.
    - A document is what its iterators yield ([doc.paragraphs],
      [doc.tables], [table.rows], [row.cells], [cell.paragraphs],
      [paragraph.runs]).  [row.cells] yields a cell once for each grid
      position it covers, so a merged cell is yielded several times and
      what one visit writes the next one reads: a row lists its cells by
      their index among the cells of the table.
    - Assigning a text ([run.text = s], the text of a new paragraph, a
      core property) goes through the library, which may refuse the
      string or store it in another form; what it refuses and what it
      stores are part of [Library].
    - [doc.save] either writes the whole file or raises and leaves the
      file system as it was. *)

From Stdlib Require Import String Ascii ZArith List Lia DecimalString.
From stdpp Require Import base option list gmap strings.

Local Open Scope string_scope.

(** ** Python string primitives *)

Module Py.

(** [s.startswith(p)] *)
Fixpoint startswith (p s : string) : bool :=
  match p, s with
  | EmptyString, _ => true
  | String a p', String b s' => Ascii.eqb a b && startswith p' s'
  | String _ _, EmptyString => false
  end.

(** [s.endswith(suf)]: some suffix of [s] is [suf]. *)
Fixpoint endswith (s suf : string) : bool :=
  String.eqb s suf ||
  match s with
  | EmptyString => false
  | String _ s' => endswith s' suf
  end.

(** [sub in s] *)
Fixpoint contains (sub s : string) : bool :=
  startswith sub s ||
  match s with
  | EmptyString => false
  | String _ s' => contains sub s'
  end.

(** [s.replace("", new)]: [new] before every character and at the end. *)
Fixpoint interleave (new s : string) : string :=
  match s with
  | EmptyString => new
  | String c s' => new ++ String c (interleave new s')
  end.

(** The scan of [s.replace(old, new)] for a non-empty [old]: leftmost
    matches, never overlapping.  [skip] counts the characters of the
    match just replaced that are still to be passed over. *)
Fixpoint replace_scan (old new : string) (skip : nat) (s : string) : string :=
  match s with
  | EmptyString => EmptyString
  | String c s' =>
      match skip with
      | S k => replace_scan old new k s'
      | O =>
          if startswith old s
          then new ++ replace_scan old new (String.length old - 1) s'
          else String c (replace_scan old new 0 s')
      end
  end.

(** [s.replace(old, new)] *)
Definition replace (s old new : string) : string :=
  match old with
  | EmptyString => interleave new s
  | String _ _ => replace_scan old new 0 s
  end.

(** The scan of [s.count(sub)] for a non-empty [sub]. *)
Fixpoint count_scan (sub : string) (skip : nat) (s : string) : nat :=
  match s with
  | EmptyString => 0
  | String _ s' =>
      match skip with
      | S k => count_scan sub k s'
      | O =>
          if startswith sub s
          then S (count_scan sub (String.length sub - 1) s')
          else count_scan sub 0 s'
      end
  end.

(** [s.count(sub)]: non-overlapping occurrences; [len(s) + 1] for the
    empty [sub]. *)
Definition count (s sub : string) : nat :=
  match sub with
  | EmptyString => S (String.length s)
  | String _ _ => count_scan sub 0 s
  end.

(** [c.isspace()] on code points below 256. *)
Definition isspace (c : ascii) : bool :=
  let n := nat_of_ascii c in
  (((9 <=? n) && (n <=? 13)) || ((28 <=? n) && (n <=? 32))
   || (n =? 133) || (n =? 160))%nat.

(** [c.lower()] on code points below 256: A-Z and the Latin-1 capitals. *)
Definition lower_char (c : ascii) : ascii :=
  let n := nat_of_ascii c in
  if (((65 <=? n) && (n <=? 90))
      || ((192 <=? n) && (n <=? 222) && negb (n =? 215)))%nat
  then ascii_of_nat (n + 32) else c.

(** [s.lower()] *)
Fixpoint lower (s : string) : string :=
  match s with
  | EmptyString => EmptyString
  | String c s' => String (lower_char c) (lower s')
  end.

(** [s.lstrip()] *)
Fixpoint lstrip (s : string) : string :=
  match s with
  | EmptyString => EmptyString
  | String c s' => if isspace c then lstrip s' else s
  end.

(** [s.rstrip()] *)
Fixpoint rstrip (s : string) : string :=
  match s with
  | EmptyString => EmptyString
  | String c s' =>
      match rstrip s' with
      | EmptyString => if isspace c then EmptyString else String c EmptyString
      | t => String c t
      end
  end.

(** [s.strip()] *)
Definition strip (s : string) : string := rstrip (lstrip s).

(** Truth value of a string: [bool(s)]. *)
Definition truthy (s : string) : bool :=
  match s with EmptyString => false | String _ _ => true end.

(** [a or b] on strings. *)
Definition or_else (a b : string) : string := if truthy a then a else b.

(** [sep.join(parts)] *)
Fixpoint join (sep : string) (parts : list string) : string :=
  match parts with
  | [] => EmptyString
  | [p] => p
  | p :: rest => p ++ sep ++ join sep rest
  end.

(** [str(n)] for the integers the tools format. *)
Definition str_of_nat (n : nat) : string := NilZero.string_of_uint (Nat.to_uint n).
Definition str_of_Z (z : Z) : string := NilZero.string_of_int (Z.to_int z).

(** [s.rfind(c)] for a one-character [c]: index of the last occurrence. *)
Fixpoint rfind (c : ascii) (s : string) : option nat :=
  match s with
  | EmptyString => None
  | String b s' =>
      match rfind c s' with
      | Some i => Some (S i)
      | None => if Ascii.eqb b c then Some 0 else None
      end
  end.

(** [s[:i]] and [s[i:]] for [0 <= i]. *)
Definition take (i : nat) (s : string) : string := String.substring 0 i s.
Definition drop (i : nat) (s : string) : string :=
  String.substring i (String.length s - i) s.

End Py.

(** ** [os.path] on a POSIX system *)

Module PosixPath.

Definition sep : ascii := "/"%char.
Definition extsep : ascii := "."%char.

Fixpoint all_of (c : ascii) (s : string) : bool :=
  match s with
  | EmptyString => true
  | String b s' => Ascii.eqb b c && all_of c s'
  end.

(** [head.rstrip('/')] *)
Fixpoint rstrip_sep (s : string) : string :=
  match s with
  | EmptyString => EmptyString
  | String c s' =>
      match rstrip_sep s' with
      | EmptyString => if Ascii.eqb c sep then EmptyString else String c EmptyString
      | t => String c t
      end
  end.

(** [i = p.rfind('/') + 1] *)
Definition after_sep (p : string) : nat :=
  match Py.rfind sep p with Some i => S i | None => 0 end.

(** [os.path.dirname(p)] *)
Definition dirname (p : string) : string :=
  let head := Py.take (after_sep p) p in
  if Py.truthy head && negb (all_of sep head) then rstrip_sep head else head.

(** [os.path.basename(p)] *)
Definition basename (p : string) : string := Py.drop (after_sep p) p.

(** [os.path.splitext(p)]: the extension starts at the last dot, when that
    dot comes after the last separator and after a character of the file
    name that is not a dot. *)
Definition splitext (p : string) : string * string :=
  match Py.rfind extsep p with
  | Some dotIndex =>
      let filenameIndex := after_sep p in
      if (filenameIndex <=? dotIndex)%nat
         && negb (all_of extsep
                    (String.substring filenameIndex (dotIndex - filenameIndex) p))
      then (Py.take dotIndex p, Py.drop dotIndex p)
      else (p, EmptyString)
  | None => (p, EmptyString)
  end.

(** [os.path.join(a, b)] *)
Definition join (a b : string) : string :=
  if Py.startswith "/" b then b
  else if negb (Py.truthy a) || Py.endswith a "/" then a ++ b
  else a ++ "/" ++ b.

End PosixPath.

(** ** The document object model the tools see *)

(** A run: literal text and its character formatting. *)
Record Run := { text : string; font : string }.

(** A paragraph: a style and its runs. *)
Record Paragraph := { style : string; runs : list Run }.

Record Cell := { cell_paragraphs : list Paragraph }.

(** A row.  [row.cells] yields one cell for each grid position of the
    row, and a cell that covers several positions (a merged cell) at each
    of them: the row lists, position by position, the index of the cell
    among the cells of its table. *)
Record Row := { cells : list nat }.

(** A table: its cells, and its rows over them. *)
Record Table := { table_cells : list Cell; rows : list Row }.

(** The body of a document is a sequence of paragraphs and tables. *)
Inductive Block :=
  | BlockParagraph (p : Paragraph)
  | BlockTable (t : Table).

Record CoreProperties := {
  title : string;
  author : string;
  created : option string;
  modified : option string
}.

Record Document := { core_properties : CoreProperties; body : list Block }.

(** A run with another text and the same formatting. *)
Definition set_text (r : Run) (s : string) : Run :=
  {| text := s; font := font r |}.

Definition set_runs (p : Paragraph) (rs : list Run) : Paragraph :=
  {| style := style p; runs := rs |}.

Definition set_body (d : Document) (b : list Block) : Document :=
  {| core_properties := core_properties d; body := b |}.

(** [paragraph.text]: the texts of the runs, concatenated. *)
Definition paragraph_text (p : Paragraph) : string :=
  fold_right String.append EmptyString (map text (runs p)).

(** [doc.paragraphs]: the paragraphs of the body, in order. *)
Fixpoint block_paragraphs (b : list Block) : list Paragraph :=
  match b with
  | [] => []
  | BlockParagraph p :: b' => p :: block_paragraphs b'
  | BlockTable _ :: b' => block_paragraphs b'
  end.

(** [doc.tables]: the tables of the body, in order. *)
Fixpoint block_tables (b : list Block) : list Table :=
  match b with
  | [] => []
  | BlockParagraph _ :: b' => block_tables b'
  | BlockTable t :: b' => t :: block_tables b'
  end.

Definition paragraphs (d : Document) : list Paragraph := block_paragraphs (body d).
Definition tables (d : Document) : list Table := block_tables (body d).

(** Outcome of a call that may raise: the value, or [str(e)]. *)
Inductive Result (A : Type) :=
  | Ok (a : A)
  | Raise (e : string).
Arguments Ok {A} a.
Arguments Raise {A} e.

(** ** The world outside the repository *)

(** [subprocess.CompletedProcess] *)
Record Completed := { returncode : Z; stdout : string; stderr : string }.

(** The dictionary [get_document_info] serialises.  [file_size] holds
    [os.path.getsize(filename)]; dividing by 1024 and rounding to two
    decimals is floating-point work left to [json_dumps]. *)
Record DocInfo := {
  info_filename : string;
  info_title : string;
  info_author : string;
  info_created : string;
  info_modified : string;
  paragraph_count : nat;
  table_count : nat;
  file_size : N
}.

(** What the tools rely on and the repository does not contain: the
    document library, the operating system and the converter.  A
    directory is an entry of the file system that [parse] rejects. *)
Record Library (File : Type) := {
  (** canonical name of a path: the key of the file it denotes *)
  resolve : string -> string;
  (** [Document(path)] on the contents of the file *)
  parse : File -> Result Document;
  (** the contents [doc.save(path)] writes *)
  render : Document -> File;
  (** [Document()]: the default template *)
  blank : Document;
  (** the exception [doc.save(path)] raises, if the path cannot be written *)
  save_error : gmap string File -> string -> option string;
  (** the exception the library raises when a run is given the text [s],
      if it refuses [s] *)
  text_fault : string -> option string;
  (** what [run.text] returns once a run has been given the text [s] *)
  stored_text : string -> string;
  (** the exception the library raises when a paragraph of the document
      is given the named style, if the document has no such style *)
  style_fault : Document -> string -> option string;
  (** the exception the library raises when a core property is given
      the value [s], if it refuses [s] *)
  property_fault : string -> option string;
  (** [os.path.getsize] *)
  getsize : File -> N;
  (** [os.listdir] *)
  listdir : gmap string File -> string -> Result (list string);
  (** [json.dumps(info, indent=2)] *)
  json_dumps : DocInfo -> string;
  (** [f"{round(size / 1024, 2)}"] *)
  show_kb : N -> string;
  (** one headless conversion of the source file, if it is there: the
      completed process and the PDF it produced, or the exception of
      [subprocess.run] *)
  soffice : option File -> Result (Completed * option File)
}.
Arguments resolve {File} _ _.
Arguments parse {File} _ _.
Arguments render {File} _ _.
Arguments blank {File} _.
Arguments save_error {File} _ _ _.
Arguments text_fault {File} _ _.
Arguments stored_text {File} _ _.
Arguments style_fault {File} _ _ _.
Arguments property_fault {File} _ _.
Arguments getsize {File} _ _.
Arguments listdir {File} _ _ _.
Arguments json_dumps {File} _ _.
Arguments show_kb {File} _ _.
Arguments soffice {File} _ _.

(** ** Computations over the file system that may raise *)

Definition IO (File A : Type) : Type :=
  gmap string File -> Result A * gmap string File.

Definition ret {File A} (a : A) : IO File A := fun fs => (Ok a, fs).

Definition raise {File A} (e : string) : IO File A := fun fs => (Raise e, fs).

Definition bind {File A B} (m : IO File A) (k : A -> IO File B) : IO File B :=
  fun fs =>
    match m fs with
    | (Ok a, fs') => k a fs'
    | (Raise e, fs') => (Raise e, fs')
    end.

Definition lift {File A} (r : Result A) : IO File A := fun fs => (r, fs).

Notation "'perform' x <- m ;; k" := (bind m (fun x => k))
  (at level 10, x name, m at level 99, k at level 200, only parsing).

(** A tool maps the file system to the returned string and the file
    system it leaves. *)
Definition Tool (File : Type) : Type :=
  gmap string File -> string * gmap string File.

(** [try: body  except Exception as e: return handler(str(e))] *)
Definition attempt {File} (tried : IO File string) (handler : string -> string)
  : Tool File :=
  fun fs =>
    match tried fs with
    | (Ok s, fs') => (s, fs')
    | (Raise e, fs') => (handler e, fs')
    end.

Definition nl : string := String "010"%char EmptyString.

Definition no_such_file (p : string) : string :=
  "[Errno 2] No such file or directory: '" ++ p ++ "'".

(** The message of [os.rename] names both paths. *)
Definition no_such_file_to_rename (src dst : string) : string :=
  "[Errno 2] No such file or directory: '" ++ src ++ "' -> '" ++ dst ++ "'".

Definition no_package (p : string) : string :=
  "Package not found at '" ++ p ++ "'".

(** [sorted(names)] *)
Fixpoint insert_sorted (x : string) (l : list string) : list string :=
  match l with
  | [] => [x]
  | y :: l' => if String.leb x y then x :: l else y :: insert_sorted x l'
  end.

Definition sorted (l : list string) : list string :=
  fold_right insert_sorted [] l.

(** ** The helpers of the server *)

(** [ensure_docx_extension] *)
Definition ensure_docx_extension (filename : string) : string :=
  if negb (Py.endswith filename ".docx") then filename ++ ".docx" else filename.

(** The loop of [read_document] over [doc.paragraphs]. *)
Definition read_paragraphs (ps : list Paragraph) : list string :=
  fold_left
    (fun text_content paragraph =>
       if Py.truthy (Py.strip (paragraph_text paragraph))
       then (text_content ++ [paragraph_text paragraph])%list
       else text_content)
    ps [].

(** The target path of [export_to_pdf]. *)
Definition export_target_path (source_path : string)
  (target_filename : option string) : string :=
  match target_filename with
  | None => Py.replace source_path ".docx" ".pdf"
  | Some target_path =>
      if negb (Py.endswith (Py.lower target_path) ".pdf")
      then target_path ++ ".pdf"
      else target_path
  end.

(** Where the converter leaves its output: the base name of the source
    with the extension [.pdf], in the output directory. *)
Definition export_converted_path (source_path output_dir : string) : string :=
  let source_base := fst (PosixPath.splitext (PosixPath.basename source_path)) in
  PosixPath.join output_dir (source_base ++ ".pdf").

(** A loop that threads the counter [replacements], yields the objects
    it has gone through and stops at the first exception. *)
Fixpoint for_each {A} (f : A -> nat -> Result (A * nat)) (l : list A) (n : nat)
  : Result (list A * nat) :=
  match l with
  | [] => Ok ([], n)
  | x :: l' =>
      match f x n with
      | Raise e => Raise e
      | Ok (x', n1) =>
          match for_each f l' n1 with
          | Raise e => Raise e
          | Ok (l'', n2) => Ok (x' :: l'', n2)
          end
      end
  end.

(** The same loop over the cells a row lists: each visit reads the cell
    as the visits before it left it, and writes it back.  A position
    without a cell is passed over. *)
Fixpoint for_each_listed (f : Cell -> nat -> Result (Cell * nat))
  (listed : list nat) (store : list Cell) (n : nat) : Result (list Cell * nat) :=
  match listed with
  | [] => Ok (store, n)
  | i :: rest =>
      match store !! i with
      | None => for_each_listed f rest store n
      | Some cell =>
          match f cell n with
          | Raise e => Raise e
          | Ok (cell', n1) => for_each_listed f rest (<[i := cell']> store) n1
          end
      end
  end.

(** A loop over [doc.paragraphs] goes through the body and leaves the
    tables alone; a loop over [doc.tables] leaves the paragraphs alone. *)
Definition on_paragraph (f : Paragraph -> nat -> Result (Paragraph * nat))
  (b : Block) (n : nat) : Result (Block * nat) :=
  match b with
  | BlockParagraph p =>
      match f p n with
      | Raise e => Raise e
      | Ok (p', n') => Ok (BlockParagraph p', n')
      end
  | BlockTable _ => Ok (b, n)
  end.

Definition on_table (f : Table -> nat -> Result (Table * nat))
  (b : Block) (n : nat) : Result (Block * nat) :=
  match b with
  | BlockParagraph _ => Ok (b, n)
  | BlockTable t =>
      match f t n with
      | Raise e => Raise e
      | Ok (t', n') => Ok (BlockTable t', n')
      end
  end.

(** ** What the library does with a text *)

Section Texts.

Context {File : Type} (lib : Library File).

(** [run.text = s]: refused, or stored in the form [run.text] then
    returns. *)
Definition assign_text (run : Run) (s : string) : Result Run :=
  match text_fault lib s with
  | Some e => Raise e
  | None => Ok (set_text run (stored_text lib s))
  end.

(** [doc.add_paragraph(text, style)]: a new last block; a run is added
    and given the text when the text is not empty, then the style is
    looked up when one is named. *)
Definition add_styled_paragraph (d : Document) (t : string) (sty : option string)
  : Result Document :=
  match (if Py.truthy t
         then match assign_text {| text := EmptyString; font := EmptyString |} t with
              | Raise e => Raise e
              | Ok r => Ok [r]
              end
         else Ok []) with
  | Raise e => Raise e
  | Ok rs =>
      match sty with
      | None =>
          Ok (set_body d (body d ++ [BlockParagraph {| style := "Normal"; runs := rs |}]))
      | Some s =>
          match style_fault lib d s with
          | Some e => Raise e
          | None =>
              Ok (set_body d (body d ++ [BlockParagraph {| style := s; runs := rs |}]))
          end
      end
  end.

(** [doc.add_paragraph(text)] *)
Definition add_paragraph (d : Document) (t : string) : Result Document :=
  add_styled_paragraph d t None.

(** [doc.add_heading(text, level)] of the library: levels 0 to 9. *)
Definition library_add_heading (d : Document) (t : string) (level : Z)
  : Result Document :=
  if ((0 <=? level) && (level <=? 9))%Z then
    let sty := if (level =? 0)%Z then "Title" else "Heading " ++ Py.str_of_Z level in
    add_styled_paragraph d t (Some sty)
  else Raise ("level must be in range 0-9, got " ++ Py.str_of_Z level).

(** [doc.core_properties.title = t] and [doc.core_properties.author = a] *)
Definition set_title (d : Document) (t : string) : Result Document :=
  match property_fault lib t with
  | Some e => Raise e
  | None =>
      let c := core_properties d in
      Ok {| core_properties :=
              {| title := t; author := author c;
                 created := created c; modified := modified c |};
            body := body d |}
  end.

Definition set_author (d : Document) (a : string) : Result Document :=
  match property_fault lib a with
  | Some e => Raise e
  | None =>
      let c := core_properties d in
      Ok {| core_properties :=
              {| title := title c; author := a;
                 created := created c; modified := modified c |};
            body := body d |}
  end.

(** *** The traversal of [replace_text] *)

(** [if find_text in run.text: run.text = ...; replacements += ...]: the
    count is taken on [run.text] as it reads after the assignment. *)
Definition replace_in_run (find_text replace_text : string) (run : Run)
  (replacements : nat) : Result (Run * nat) :=
  if Py.contains find_text (text run) then
    match assign_text run (Py.replace (text run) find_text replace_text) with
    | Raise e => Raise e
    | Ok run' => Ok (run', replacements + Py.count (text run') replace_text)
    end
  else Ok (run, replacements).

(** [if find_text in paragraph.text: for run in paragraph.runs: ...] *)
Definition replace_in_paragraph (find_text replace_text : string)
  (paragraph : Paragraph) (replacements : nat) : Result (Paragraph * nat) :=
  if Py.contains find_text (paragraph_text paragraph) then
    match for_each (replace_in_run find_text replace_text) (runs paragraph)
            replacements with
    | Raise e => Raise e
    | Ok (rs, n) => Ok (set_runs paragraph rs, n)
    end
  else Ok (paragraph, replacements).

(** [for paragraph in cell.paragraphs: ...] *)
Definition replace_in_cell (find_text replace_text : string) (cell : Cell)
  (replacements : nat) : Result (Cell * nat) :=
  match for_each (replace_in_paragraph find_text replace_text)
          (cell_paragraphs cell) replacements with
  | Raise e => Raise e
  | Ok (ps, n) => Ok ({| cell_paragraphs := ps |}, n)
  end.

(** [for cell in row.cells: ...], on the cells of the table. *)
Definition replace_in_row (find_text replace_text : string) (row : Row)
  (store : list Cell) (replacements : nat) : Result (list Cell * nat) :=
  for_each_listed (replace_in_cell find_text replace_text) (cells row)
    store replacements.

(** [for row in table.rows: ...] *)
Fixpoint replace_in_rows (find_text replace_text : string) (rs : list Row)
  (store : list Cell) (replacements : nat) : Result (list Cell * nat) :=
  match rs with
  | [] => Ok (store, replacements)
  | row :: rest =>
      match replace_in_row find_text replace_text row store replacements with
      | Raise e => Raise e
      | Ok (store', n) => replace_in_rows find_text replace_text rest store' n
      end
  end.

Definition replace_in_table (find_text replace_text : string) (table : Table)
  (replacements : nat) : Result (Table * nat) :=
  match replace_in_rows find_text replace_text (rows table) (table_cells table)
          replacements with
  | Raise e => Raise e
  | Ok (store, n) => Ok ({| table_cells := store; rows := rows table |}, n)
  end.

(** The two loops of [replace_text], from [replacements = 0]. *)
Definition replace_in_document (find_text replace_text : string) (doc : Document)
  : Result (Document * nat) :=
  match for_each (on_paragraph (replace_in_paragraph find_text replace_text))
          (body doc) 0 with
  | Raise e => Raise e
  | Ok (body1, n1) =>
      match for_each (on_table (replace_in_table find_text replace_text))
              body1 n1 with
      | Raise e => Raise e
      | Ok (body2, n2) => Ok (set_body doc body2, n2)
      end
  end.

End Texts.

(** ** The tools *)

Section Tools.

Context {File : Type} (lib : Library File).

(** [check_file_exists]: [os.path.exists]. *)
Definition check_file_exists (fs : gmap string File) (filename : string) : bool :=
  bool_decide (is_Some (fs !! resolve lib filename)).

Definition os_path_exists (p : string) : IO File bool :=
  fun fs => (Ok (check_file_exists fs p), fs).

(** [os.path.getsize(p)] *)
Definition os_path_getsize (p : string) : IO File N :=
  fun fs =>
    match fs !! resolve lib p with
    | Some f => (Ok (getsize lib f), fs)
    | None => (Raise (no_such_file p), fs)
    end.

(** [os.listdir(directory)] *)
Definition os_listdir (directory : string) : IO File (list string) :=
  fun fs => (listdir lib fs directory, fs).

(** [os.rename(src, dst)] *)
Definition os_rename (src dst : string) : IO File unit :=
  fun fs =>
    match fs !! resolve lib src with
    | Some f => (Ok tt, <[resolve lib dst := f]> (delete (resolve lib src) fs))
    | None => (Raise (no_such_file_to_rename src dst), fs)
    end.

(** [Document(filename)] *)
Definition Document_open (filename : string) : IO File Document :=
  fun fs =>
    match fs !! resolve lib filename with
    | Some f => (parse lib f, fs)
    | None => (Raise (no_package filename), fs)
    end.

(** [Document()] *)
Definition Document_new : IO File Document := ret (blank lib).

(** [doc.save(filename)] *)
Definition Document_save (doc : Document) (filename : string) : IO File unit :=
  fun fs =>
    match save_error lib fs filename with
    | Some e => (Raise e, fs)
    | None => (Ok tt, <[resolve lib filename := render lib doc]> fs)
    end.

(** [subprocess.run(['soffice', '--headless', '--convert-to', 'pdf',
    source_path, '--outdir', output_dir], ...)]: the converter writes
    [<source-basename>.pdf] into [output_dir]. *)
Definition subprocess_run_soffice (source_path output_dir : string)
  : IO File Completed :=
  fun fs =>
    match soffice lib (fs !! resolve lib source_path) with
    | Raise e => (Raise e, fs)
    | Ok (result, None) => (Ok result, fs)
    | Ok (result, Some pdf) =>
        (Ok result,
         <[resolve lib (export_converted_path source_path output_dir) := pdf]> fs)
    end.

(** [read_document] *)
Definition read_document (filename : string) : Tool File :=
  let filename := ensure_docx_extension filename in
  fun fs =>
    if negb (check_file_exists fs filename) then
      ("Error: Document '" ++ filename ++ "' does not exist", fs)
    else
      attempt
        (perform doc <- Document_open filename ;;
         ret (Py.join nl (read_paragraphs (paragraphs doc))))
        (fun e => "Error reading document: " ++ e) fs.

(** [get_document_info] *)
Definition get_document_info (filename : string) : Tool File :=
  let filename := ensure_docx_extension filename in
  fun fs =>
    if negb (check_file_exists fs filename) then
      ("Error: Document '" ++ filename ++ "' does not exist", fs)
    else
      attempt
        (perform doc <- Document_open filename ;;
         perform size <- os_path_getsize filename ;;
         let props := core_properties doc in
         let info :=
           {| info_filename := filename;
              info_title := Py.or_else (title props) "Untitled";
              info_author := Py.or_else (author props) "Unknown";
              info_created := default "Unknown" (created props);
              info_modified := default "Unknown" (modified props);
              paragraph_count := length (paragraphs doc);
              table_count := length (tables doc);
              file_size := size |} in
         ret (json_dumps lib info))
        (fun e => "Error getting document info: " ++ e) fs.

(** The loop of [list_documents] over the sorted names.  The bullet of
    the source is written here as its UTF-8 bytes. *)
Fixpoint list_entries (directory : string) (names : list string) (result : string)
  : IO File string :=
  match names with
  | [] => ret result
  | file :: rest =>
      let file_path := PosixPath.join directory file in
      perform size <- os_path_getsize file_path ;;
      list_entries directory rest
        (result ++ "  • " ++ file ++ " (" ++ show_kb lib size ++ " KB)" ++ nl)
  end.

(** [list_documents] *)
Definition list_documents (directory : string) : Tool File :=
  attempt
    (perform found <- os_path_exists directory ;;
     if negb found then
       ret ("Error: Directory '" ++ directory ++ "' does not exist")
     else
       perform names <- os_listdir directory ;;
       let docx_files := filter (fun f => Py.endswith f ".docx" = true) names in
       match docx_files with
       | [] => ret ("No Word documents found in '" ++ directory ++ "'")
       | _ =>
           perform result <-
             list_entries directory (sorted docx_files)
               ("Found " ++ Py.str_of_nat (length docx_files)
                ++ " Word documents in '" ++ directory ++ "':" ++ nl) ;;
           ret (Py.strip result)
       end)
    (fun e => "Error listing documents: " ++ e).

(** [copy_document] *)
Definition copy_document (source_filename target_filename : string) : Tool File :=
  let source_filename := ensure_docx_extension source_filename in
  let target_filename := ensure_docx_extension target_filename in
  fun fs =>
    if negb (check_file_exists fs source_filename) then
      ("Error: Source document '" ++ source_filename ++ "' does not exist", fs)
    else if check_file_exists fs target_filename then
      ("Error: Target document '" ++ target_filename ++ "' already exists", fs)
    else
      attempt
        (perform source_doc <- Document_open source_filename ;;
         perform _ <- Document_save source_doc target_filename ;;
         ret ("Document copied successfully from '" ++ source_filename
              ++ "' to '" ++ target_filename ++ "'"))
        (fun e => "Error copying document: " ++ e) fs.

(** [if value: doc.core_properties.<field> = value] for an optional argument *)
Definition set_if_given (set : Document -> string -> Result Document)
  (value : option string) (doc : Document) : Result Document :=
  match value with
  | Some v => if Py.truthy v then set doc v else Ok doc
  | None => Ok doc
  end.

(** [create_document] *)
Definition create_document (filename : string) (title author : option string)
  : Tool File :=
  let filename := ensure_docx_extension filename in
  attempt
    (perform doc <- Document_new ;;
     perform doc <- lift (set_if_given (set_title lib) title doc) ;;
     perform doc <- lift (set_if_given (set_author lib) author doc) ;;
     perform _ <- Document_save doc filename ;;
     ret ("Document '" ++ filename ++ "' created successfully"))
    (fun e => "Error creating document: " ++ e).

(** The [try] block of [write_text]. *)
Definition write_text_body (filename text : string) (append : bool)
  : IO File string :=
  perform found <- os_path_exists filename ;;
  perform doc <-
    (if append && found then Document_open filename else Document_new) ;;
  perform doc <- lift (add_paragraph lib doc text) ;;
  perform _ <- Document_save doc filename ;;
  perform found_now <- os_path_exists filename ;;
  let action := if append && found_now then "appended to" else "written to" in
  ret ("Text " ++ action ++ " '" ++ filename ++ "' successfully").

(** [write_text] *)
Definition write_text (filename text : string) (append : bool) : Tool File :=
  let filename := ensure_docx_extension filename in
  attempt (write_text_body filename text append)
    (fun e => "Error writing to document: " ++ e).

(** [add_heading] *)
Definition add_heading (filename text : string) (level : Z) : Tool File :=
  let filename := ensure_docx_extension filename in
  fun fs =>
    if ((level <? 1) || (level >? 6))%Z then
      ("Error: Heading level must be between 1 and 6", fs)
    else
      attempt
        (perform found <- os_path_exists filename ;;
         perform doc <- (if found then Document_open filename else Document_new) ;;
         perform doc <- lift (library_add_heading lib doc text level) ;;
         perform _ <- Document_save doc filename ;;
         ret ("Heading '" ++ text ++ "' (level " ++ Py.str_of_Z level
              ++ ") added to '" ++ filename ++ "'"))
        (fun e => "Error adding heading: " ++ e) fs.

(** The [try] block of [replace_text]. *)
Definition replace_text_body (filename find_text replace_text : string)
  : IO File string :=
  perform doc <- Document_open filename ;;
  perform changed <- lift (replace_in_document lib find_text replace_text doc) ;;
  let (doc, replacements) := changed in
  if (0 <? replacements)%nat then
    perform _ <- Document_save doc filename ;;
    ret ("Replaced " ++ Py.str_of_nat replacements ++ " occurrence(s) of '"
         ++ find_text ++ "' with '" ++ replace_text ++ "'")
  else
    ret ("No occurrences of '" ++ find_text ++ "' found").

(** [replace_text] *)
Definition replace_text (filename find_text replace_text : string) : Tool File :=
  let filename := ensure_docx_extension filename in
  fun fs =>
    if negb (check_file_exists fs filename) then
      ("Error: Document '" ++ filename ++ "' does not exist", fs)
    else
      attempt (replace_text_body filename find_text replace_text)
        (fun e => "Error replacing text: " ++ e) fs.

(** The [try] block of [export_to_pdf]. *)
Definition export_to_pdf_body (source_path target_path output_dir : string)
  : IO File string :=
  perform result <- subprocess_run_soffice source_path output_dir ;;
  if negb (returncode result =? 0)%Z then
    let error_msg :=
      Py.or_else (Py.strip (stderr result)) (Py.strip (stdout result)) in
    ret ("Conversion failed: " ++ error_msg)
  else
    let converted_path := export_converted_path source_path output_dir in
    if negb (String.eqb converted_path target_path) then
      perform taken <- os_path_exists target_path ;;
      if taken then
        ret ("Error: Target file '" ++ target_path ++ "' already exists")
      else
        perform _ <- os_rename converted_path target_path ;;
        ret ("Document converted to PDF: '" ++ target_path ++ "'")
    else
      ret ("Document converted to PDF: '" ++ target_path ++ "'").

(** [export_to_pdf] *)
Definition export_to_pdf (source_filename : string)
  (target_filename : option string) : Tool File :=
  let source_path := ensure_docx_extension source_filename in
  fun fs =>
    if negb (check_file_exists fs source_path) then
      ("Error: Source document '" ++ source_path ++ "' does not exist", fs)
    else
      let target_path := export_target_path source_path target_filename in
      let output_dir := Py.or_else (PosixPath.dirname target_path) "." in
      attempt (export_to_pdf_body source_path target_path output_dir)
        (fun e => "Error during PDF conversion: " ++ e) fs.

End Tools.

(** ** The tool surface *)

(** One request: the tool and its arguments. *)
Inductive Call :=
  | ReadDocument (filename : string)
  | GetDocumentInfo (filename : string)
  | ListDocuments (directory : string)
  | CopyDocument (source_filename target_filename : string)
  | CreateDocument (filename : string) (title author : option string)
  | WriteText (filename text : string) (append : bool)
  | AddHeading (filename text : string) (level : Z)
  | ReplaceText (filename find_text replace_text : string)
  | ExportToPdf (source_filename : string) (target_filename : option string).

Definition invoke {File} (lib : Library File) (c : Call) : Tool File :=
  match c with
  | ReadDocument f => read_document lib f
  | GetDocumentInfo f => get_document_info lib f
  | ListDocuments d => list_documents lib d
  | CopyDocument s t => copy_document lib s t
  | CreateDocument f t a => create_document lib f t a
  | WriteText f t a => write_text lib f t a
  | AddHeading f t l => add_heading lib f t l
  | ReplaceText f a b => replace_text lib f a b
  | ExportToPdf s t => export_to_pdf lib s t
  end.


(** ** What the specification says, in its own terms *)

(** A file name without the document extension. *)
Definition lacks_extension (filename : string) : Prop :=
  Py.endswith filename ".docx" = false.

(** [appended c c']: [c'] is the call [c] with [.docx] appended to one
    argument that names a Word document and lacks the extension. *)
Inductive appended : Call -> Call -> Prop :=
  | appended_read f :
      lacks_extension f ->
      appended (ReadDocument f) (ReadDocument (f ++ ".docx"))
  | appended_info f :
      lacks_extension f ->
      appended (GetDocumentInfo f) (GetDocumentInfo (f ++ ".docx"))
  | appended_copy_source s t :
      lacks_extension s ->
      appended (CopyDocument s t) (CopyDocument (s ++ ".docx") t)
  | appended_copy_target s t :
      lacks_extension t ->
      appended (CopyDocument s t) (CopyDocument s (t ++ ".docx"))
  | appended_create f t a :
      lacks_extension f ->
      appended (CreateDocument f t a) (CreateDocument (f ++ ".docx") t a)
  | appended_write f t a :
      lacks_extension f ->
      appended (WriteText f t a) (WriteText (f ++ ".docx") t a)
  | appended_heading f t l :
      lacks_extension f ->
      appended (AddHeading f t l) (AddHeading (f ++ ".docx") t l)
  | appended_replace f a b :
      lacks_extension f ->
      appended (ReplaceText f a b) (ReplaceText (f ++ ".docx") a b)
  | appended_export_source s t :
      lacks_extension s ->
      appended (ExportToPdf s t) (ExportToPdf (s ++ ".docx") t).

(** The grid positions of a table, row by row, and the cells
    [row.cells] yields there: a cell listed at two positions comes
    twice. *)
Definition positions (t : Table) : list nat := rows t ≫= cells.

(** The cells a list of positions yields from the cells of a table. *)
Definition yielded (listed : list nat) (store : list Cell) : list Cell :=
  i ← listed; option_list (store !! i).

Definition listed_cells (t : Table) : list Cell :=
  yielded (positions t) (table_cells t).

(** The paragraphs [replace_text] goes through, as they stand in the
    document it is given: those of the body in order, then those of
    every cell of every row of every table. *)
Definition table_paragraphs (t : Table) : list Paragraph :=
  c ← listed_cells t; cell_paragraphs c.

Definition visited_paragraphs (doc : Document) : list Paragraph :=
  paragraphs doc ++ (tables doc ≫= table_paragraphs).

(** Occurrences of [replace_text] in the text of a run once [find_text]
    has been substituted in it. *)
Definition occurrences_after (find_text replace_text : string) (r : Run) : nat :=
  Py.count (Py.replace (text r) find_text replace_text) replace_text.

Definition matching_runs (find_text : string) (p : Paragraph) : list Run :=
  filter (fun r => Py.contains find_text (text r) = true) (runs p).

Definition matching_paragraphs (find_text : string) (doc : Document)
  : list Paragraph :=
  filter (fun p => Py.contains find_text (paragraph_text p) = true)
    (visited_paragraphs doc).

(** The count the specification gives for [replace_text]. *)
Definition stated_count (find_text replace_text : string) (doc : Document) : nat :=
  sum_list_with
    (fun p =>
       sum_list_with (occurrences_after find_text replace_text)
         (matching_runs find_text p))
    (matching_paragraphs find_text doc).

(** [s] with [new] at every character boundary: before the first
    character, between any two, and after the last. *)
Definition at_every_boundary (new s : string) : string :=
  fold_right (fun c rest => new ++ String c rest) new (list_ascii_of_string s).

(** A document with every run of every visited paragraph rewritten by
    [g]: the runs of the body paragraphs and of the cells that some row
    lists. *)
Definition map_paragraph_runs (g : string -> string) (p : Paragraph) : Paragraph :=
  set_runs p (map (fun r => set_text r (g (text r))) (runs p)).

Definition map_cell_runs (g : string -> string) (c : Cell) : Cell :=
  {| cell_paragraphs := map (map_paragraph_runs g) (cell_paragraphs c) |}.

Definition map_table_runs (g : string -> string) (t : Table) : Table :=
  {| table_cells :=
       imap (fun i c => if decide (i ∈ positions t) then map_cell_runs g c else c)
         (table_cells t);
     rows := rows t |}.

Definition map_block_runs (g : string -> string) (b : Block) : Block :=
  match b with
  | BlockParagraph p => BlockParagraph (map_paragraph_runs g p)
  | BlockTable t => BlockTable (map_table_runs g t)
  end.

Definition map_document_runs (g : string -> string) (doc : Document) : Document :=
  set_body doc (map (map_block_runs g) (body doc)).

(** A character that [str.strip] keeps. *)
Definition has_visible_character (s : string) : bool :=
  existsb (fun c => negb (Py.isspace c)) (list_ascii_of_string s).



(** ** Further vocabulary for the properties of the tools *)

(** The library reads back what it wrote. *)
Definition round_trips {File} (lib : Library File) : Prop :=
  forall d, parse lib (render lib d) = Ok d.

(** The library takes the text [s] and [run.text] returns it as given. *)
Definition stores_as_given {File} (lib : Library File) (s : string) : Prop :=
  text_fault lib s = None /\ stored_text lib s = s.

(** No cell of a table of the document is listed at two grid positions:
    the document has no merged cell. *)
Definition plain_tables (doc : Document) : Prop :=
  Forall (fun t => NoDup (positions t)) (tables doc).

(** The text a run reads after its visit by [replace_text], and what
    the visit adds to the counter, when the library takes the new
    text. *)
Definition rewritten {File} (lib : Library File) (find_text replace_text t : string)
  : string :=
  if Py.contains find_text t
  then stored_text lib (Py.replace t find_text replace_text)
  else t.

Definition run_gain {File} (lib : Library File) (find_text replace_text : string)
  (r : Run) : nat :=
  if Py.contains find_text (text r)
  then Py.count (stored_text lib (Py.replace (text r) find_text replace_text))
         replace_text
  else 0.

Definition paragraph_gain {File} (lib : Library File)
  (find_text replace_text : string) (p : Paragraph) : nat :=
  if Py.contains find_text (paragraph_text p)
  then sum_list_with (run_gain lib find_text replace_text) (runs p)
  else 0.

(** The visit of the run assigns the text the run already has, and the
    library takes it and stores it as given. *)
Definition keeps_text {File} (lib : Library File) (find_text replace_text : string)
  (r : Run) : Prop :=
  Py.contains find_text (text r) = true ->
  text_fault lib (Py.replace (text r) find_text replace_text) = None /\
  stored_text lib (Py.replace (text r) find_text replace_text) = text r.

(** The library takes the text the visit gives the run. *)
Definition accepted {File} (lib : Library File) (find_text replace_text : string)
  (r : Run) : Prop :=
  Py.contains find_text (text r) = true ->
  text_fault lib (Py.replace (text r) find_text replace_text) = None.

(** The lines [read_document] joins: the texts of the body paragraphs
    that have a character other than white space. *)
Definition visible_lines (doc : Document) : list string :=
  map paragraph_text
    (filter (fun p => has_visible_character (paragraph_text p) = true)
       (paragraphs doc)).

(** The line a new paragraph of text [t] adds to what is read. *)
Definition line_of (t : string) : list string :=
  if has_visible_character t then [t] else [].

(** The text of the paragraph [doc.add_paragraph(t)] adds, as it reads
    back: no run for an empty [t], one run holding [t] as the library
    stores it otherwise. *)
Definition paragraph_text_of {File} (lib : Library File) (t : string) : string :=
  if Py.truthy t then stored_text lib t else EmptyString.

(** A document with one more paragraph, of style [sty], whose text is
    [t] as the library stores it. *)
Definition with_paragraph {File} (lib : Library File) (d : Document)
  (t sty : string) : Document :=
  set_body d
    (body d
     ++ [BlockParagraph
           {| style := sty;
              runs := if Py.truthy t
                      then [{| text := stored_text lib t; font := EmptyString |}]
                      else [] |}]).

(** A document with another title, with another author. *)
Definition with_title (d : Document) (t : string) : Document :=
  let c := core_properties d in
  {| core_properties :=
       {| title := t; author := author c; created := created c; modified := modified c |};
     body := body d |}.

Definition with_author (d : Document) (a : string) : Document :=
  let c := core_properties d in
  {| core_properties :=
       {| title := title c; author := a; created := created c; modified := modified c |};
     body := body d |}.

(** An optional argument applied when it is given and not empty. *)
Definition when_given (set : Document -> string -> Document) (value : option string)
  (d : Document) : Document :=
  match value with
  | Some v => if Py.truthy v then set d v else d
  | None => d
  end.

(** The library takes the value as a core property, when it is given
    and not empty. *)
Definition property_accepted {File} (lib : Library File) (value : option string)
  : Prop :=
  match value with
  | Some v => Py.truthy v = true -> property_fault lib v = None
  | None => True
  end.

(** The document [write_text] and [add_heading] start from: the one in
    the file when they load it, the new one of the library otherwise. *)
Definition base_document {File} (lib : Library File) (fs : gmap string File)
  (path : string) (loads : bool) (d : Document) : Prop :=
  match fs !! resolve lib path with
  | Some f => if loads then parse lib f = Ok d else d = blank lib
  | None => d = blank lib
  end.

(** A document with the text of every run removed: what is left is the
    structure, the styles, the formatting and the properties. *)
Definition without_text_block (b : Block) : Block :=
  match b with
  | BlockParagraph p => BlockParagraph (map_paragraph_runs (fun _ => EmptyString) p)
  | BlockTable t =>
      BlockTable
        {| table_cells := map (map_cell_runs (fun _ => EmptyString)) (table_cells t);
           rows := rows t |}
  end.

Definition without_text (doc : Document) : Document :=
  set_body doc (map without_text_block (body doc)).

(** ** A small concrete world, to run the tools on *)

Module Demo.

Inductive File :=
  | Docx (d : Document)
  | Pdf (d : Document)
  | Junk.

Definition empty_document : Document :=
  {| core_properties :=
       {| title := ""; author := "python-docx"; created := None; modified := None |};
     body := [] |}.

Definition convert (source : option File) : Result (Completed * option File) :=
  match source with
  | Some (Docx d) => Ok ({| returncode := 0; stdout := ""; stderr := "" |}, Some (Pdf d))
  | _ => Ok ({| returncode := 1; stdout := ""; stderr := "Error: source file could not be loaded" |}, None)
  end.

(** Paths are relative to one working directory: [./name] is [name]. *)
Definition canonical (p : string) : string :=
  if Py.startswith "./" p then Py.drop 2 p else p.

Definition carriage_return : string := String "013"%char EmptyString.
Definition start_of_heading : string := String "001"%char EmptyString.

(** A character XML cannot hold: a control character other than the
    tab, the line feed and the carriage return. *)
Definition is_control (c : ascii) : bool :=
  let n := nat_of_ascii c in
  ((n <? 32) && negb ((n =? 9) || (n =? 10) || (n =? 13)))%nat.

Definition not_xml : string :=
  "All strings must be XML compatible: Unicode or ASCII, no NULL bytes or control characters".

(** The text of a run is kept as characters, tabs and line breaks: a
    carriage return becomes a line break and reads back as a line feed;
    a control character is refused. *)
Definition refuse_text (s : string) : option string :=
  if existsb is_control (list_ascii_of_string s) then Some not_xml else None.

Fixpoint store_text (s : string) : string :=
  match s with
  | EmptyString => EmptyString
  | String c s' =>
      String (if Ascii.eqb c "013"%char then "010"%char else c) (store_text s')
  end.

(** A core property holds at most 255 characters, none of them a
    control character. *)
Definition refuse_property (s : string) : option string :=
  if (255 <? String.length s)%nat
  then Some ("exceeded 255 char limit for property, got:" ++ nl ++ nl ++ "'" ++ s ++ "'")
  else refuse_text s.

Definition lib_with (converter : option File -> Result (Completed * option File))
  : Library File :=
  {| resolve := canonical;
     parse := fun f => match f with Docx d => Ok d | _ => Raise "File is not a zip file" end;
     render := Docx;
     blank := empty_document;
     save_error := fun _ _ => None;
     text_fault := refuse_text;
     stored_text := store_text;
     style_fault := fun _ _ => None;
     property_fault := refuse_property;
     getsize := fun _ => 0%N;
     listdir := fun fs _ => Ok (map fst (map_to_list fs));
     json_dumps := fun i => "{" ++ info_filename i ++ "}";
     show_kb := fun _ => "0.0";
     soffice := converter |}.

Definition lib : Library File := lib_with convert.

Definition plain (s : string) : Run := {| text := s; font := "" |}.
Definition para (rs : list Run) : Paragraph := {| style := "Normal"; runs := rs |}.
Definition document (b : list Block) : Document := set_body empty_document b.

(** A table of one row and one cell. *)
Definition one_cell (ps : list Paragraph) : Block :=
  BlockTable {| table_cells := [{| cell_paragraphs := ps |}];
                rows := [{| cells := [0] |}] |}.

(** A table of one row whose only cell covers two grid positions. *)
Definition merged_cell (ps : list Paragraph) : Block :=
  BlockTable {| table_cells := [{| cell_paragraphs := ps |}];
                rows := [{| cells := [0; 0] |}] |}.

(** A file system that holds one document, at [a.docx]. *)
Definition holding (doc : Document) : gmap string File := {["a.docx" := Docx doc]}.

(** Two paragraphs around a table. *)
Definition report : Document :=
  document
    [BlockParagraph (para [plain "test"; plain "xtx"]);
     one_cell [para [plain "t"]];
     BlockParagraph (para [plain "no"])].

(** A merged cell that holds one letter. *)
Definition merged : Document := document [merged_cell [para [plain "t"]]].

(** One word in two runs of different formatting. *)
Definition split_word : Document :=
  document
    [BlockParagraph
       {| style := "Normal";
          runs := [{| text := "wor"; font := "" |}; {| text := "ld"; font := "bold" |}] |}].

(** Paragraphs with text, without runs, of blanks, and in a table. *)
Definition chapter : Document :=
  document
    [BlockParagraph (para [plain "Chapter "; plain "1"]);
     BlockParagraph (para []);
     one_cell [para [plain "cell"]];
     BlockParagraph (para [plain "  "]);
     BlockParagraph (para [plain "Body."])].

Definition blanks : Document :=
  document
    [BlockParagraph (para [plain "  "]);
     BlockParagraph (para [plain "Body."])].

(** A document and what the empty search string makes of it. *)
Definition letters : Document :=
  document
    [BlockParagraph (para [plain "ab"; plain ""]);
     one_cell [para [plain "c"]]].

Definition dashed_letters : Document :=
  document
    [BlockParagraph (para [plain "-a-b-"; plain "-"]);
     one_cell [para [plain "-c-"]]].

Definition source_and_target : gmap string File :=
  {["a.docx" := Docx empty_document; "b.docx" := Junk]}.

Definition target_only : gmap string File := {["b.docx" := Junk]}.

(** A source in a directory, and a file where its PDF will go. *)
Definition with_old_pdf : gmap string File :=
  {["d/a.docx" := Docx empty_document; "d/a.pdf" := Junk]}.

(** A source in a directory whose name holds [.docx]. *)
Definition in_docx_directory : gmap string File :=
  {["a.docx.d/b.docx" := Docx empty_document]}.

(** A source in a directory, alone. *)
Definition in_directory : gmap string File :=
  {["d/a.docx" := Docx empty_document]}.

(** A converter that exits with zero and writes nothing. *)
Definition silent_lib : Library File :=
  lib_with (fun _ => Ok ({| returncode := 0; stdout := ""; stderr := "" |}, None)).

(** The new document of the library with one paragraph of text. *)
Definition with_line (d : Document) (t : string) : Document :=
  set_body d (body d ++ [BlockParagraph (para [plain t])]).

Definition written : gmap string File :=
  {["new.docx" := Docx (with_line empty_document "hi")]}.

End Demo.

(** A decidable statement about given data, settled by evaluation. *)
Ltac by_evaluation := apply (bool_decide_unpack _); vm_compute; exact I.

(** * Properties *)

(** ** The string primitives *)

Lemma append_cons (a : ascii) (s t : string) :
  String a s ++ t = String a (s ++ t).
Proof. reflexivity. Qed.

Lemma append_empty_l (s : string) : "" ++ s = s.
Proof. reflexivity. Qed.

Lemma append_empty_r (s : string) : s ++ "" = s.
Proof.
  induction s as [|a s IH]; [reflexivity|].
  rewrite append_cons, IH. reflexivity.
Qed.

Lemma append_assoc (s t u : string) : (s ++ t) ++ u = s ++ (t ++ u).
Proof.
  induction s as [|a s IH]; [reflexivity|].
  rewrite !append_cons, IH. reflexivity.
Qed.

Lemma startswith_app (p s : string) : Py.startswith p (p ++ s) = true.
Proof.
  induction p as [|a p IH]; simpl; [reflexivity|].
  rewrite Ascii.eqb_refl. exact IH.
Qed.

Lemma startswith_empty (s : string) : Py.startswith "" s = true.
Proof. reflexivity. Qed.

Lemma contains_empty (s : string) : Py.contains "" s = true.
Proof. destruct s; reflexivity. Qed.

Lemma endswith_refl (s : string) : Py.endswith s s = true.
Proof. destruct s; cbn [Py.endswith]; rewrite String.eqb_refl; reflexivity. Qed.

Lemma endswith_app (s suf : string) : Py.endswith (s ++ suf) suf = true.
Proof.
  induction s as [|a s IH].
  - apply endswith_refl.
  - change (String a s ++ suf) with (String a (s ++ suf)).
    cbn [Py.endswith]. rewrite IH. apply orb_true_r.
Qed.

(** Passing over the rest of a match brings the scan to what follows it. *)
Lemma count_scan_skip (sub p s : string) :
  Py.count_scan sub (String.length p) (p ++ s) = Py.count_scan sub 0 s.
Proof.
  induction p as [|a p IH]; simpl; [|exact IH].
  destruct s; reflexivity.
Qed.

Lemma replace_scan_skip (old new p s : string) :
  Py.replace_scan old new (String.length p) (p ++ s) = Py.replace_scan old new 0 s.
Proof.
  induction p as [|a p IH]; simpl; [|exact IH].
  destruct s; reflexivity.
Qed.

(** The equations of [str.count] and [str.replace] at a match. *)
Lemma count_match (sub s : string) :
  sub <> "" -> Py.count (sub ++ s) sub = S (Py.count s sub).
Proof.
  destruct sub as [|a sub]; [congruence|]. intros _.
  unfold Py.count.
  change (String a sub ++ s) with (String a (sub ++ s)).
  cbn [Py.count_scan].
  change (String a (sub ++ s)) with (String a sub ++ s).
  rewrite startswith_app.
  cbn [String.length]. rewrite Nat.sub_1_r. cbn [Nat.pred].
  rewrite count_scan_skip. reflexivity.
Qed.

Lemma replace_match (old new s : string) :
  old <> "" -> Py.replace (old ++ s) old new = new ++ Py.replace s old new.
Proof.
  destruct old as [|a old]; [congruence|]. intros _.
  unfold Py.replace.
  change (String a old ++ s) with (String a (old ++ s)).
  cbn [Py.replace_scan].
  change (String a (old ++ s)) with (String a old ++ s).
  rewrite startswith_app.
  cbn [String.length]. rewrite Nat.sub_1_r. cbn [Nat.pred].
  rewrite replace_scan_skip. reflexivity.
Qed.

(** The equations of [str.count] and [str.replace] where nothing matches. *)
Lemma count_step (sub : string) (c : ascii) (s : string) :
  sub <> "" -> Py.startswith sub (String c s) = false ->
  Py.count (String c s) sub = Py.count s sub.
Proof.
  destruct sub as [|a sub]; [congruence|]. intros _ H.
  unfold Py.count. cbn [Py.count_scan]. rewrite H. reflexivity.
Qed.

Lemma replace_step (old new : string) (c : ascii) (s : string) :
  old <> "" -> Py.startswith old (String c s) = false ->
  Py.replace (String c s) old new = String c (Py.replace s old new).
Proof.
  destruct old as [|a old]; [congruence|]. intros _ H.
  unfold Py.replace. cbn [Py.replace_scan]. rewrite H. reflexivity.
Qed.

(** What the three tests mean. *)
Lemma startswith_spec (p s : string) :
  Py.startswith p s = true <-> exists t, s = p ++ t.
Proof.
  split.
  - revert s. induction p as [|a p IH]; intros s H.
    + exists s. reflexivity.
    + destruct s as [|b s]; [discriminate|].
      cbn [Py.startswith] in H. apply andb_true_iff in H as [Hab H].
      apply Ascii.eqb_eq in Hab. subst b.
      destruct (IH s H) as [t ->]. exists t. reflexivity.
  - intros [t ->]. apply startswith_app.
Qed.

Lemma contains_spec (sub s : string) :
  Py.contains sub s = true <-> exists a b, s = a ++ sub ++ b.
Proof.
  split.
  - induction s as [|c s IH]; cbn [Py.contains]; intros H;
      apply orb_true_iff in H as [H|H].
    + apply startswith_spec in H as [t ->]. exists "", t. reflexivity.
    + discriminate.
    + apply startswith_spec in H as [t ->]. exists "", t. reflexivity.
    + destruct (IH H) as (a & b & ->). exists (String c a), b. reflexivity.
  - intros (a & b & ->). induction a as [|c a IH].
    + rewrite append_empty_l.
      destruct (sub ++ b) eqn:E; cbn [Py.contains]; rewrite <- E;
        rewrite startswith_app; reflexivity.
    + rewrite append_cons. cbn [Py.contains]. rewrite IH. apply orb_true_r.
Qed.

Lemma endswith_spec (s suf : string) :
  Py.endswith s suf = true <-> exists a, s = a ++ suf.
Proof.
  split.
  - induction s as [|c s IH]; cbn [Py.endswith]; intros H;
      apply orb_true_iff in H as [H|H].
    + apply String.eqb_eq in H. subst suf. exists "". reflexivity.
    + discriminate.
    + apply String.eqb_eq in H. subst suf. exists "". reflexivity.
    + destruct (IH H) as [a ->]. exists (String c a). reflexivity.
  - intros [a ->]. apply endswith_app.
Qed.

(** Where [old] does not occur, [str.replace] changes nothing and
    [str.count] finds nothing. *)
Lemma replace_absent (s old new : string) :
  Py.contains old s = false -> Py.replace s old new = s.
Proof.
  intros H.
  assert (Hne : old <> "") by (intros ->; rewrite contains_empty in H; discriminate).
  induction s as [|c s IH].
  - destruct old; [congruence|reflexivity].
  - cbn [Py.contains] in H. apply orb_false_iff in H as [H1 H2].
    rewrite replace_step by assumption. rewrite (IH H2). reflexivity.
Qed.

Lemma count_absent (s sub : string) :
  Py.contains sub s = false -> Py.count s sub = 0.
Proof.
  intros H.
  assert (Hne : sub <> "") by (intros ->; rewrite contains_empty in H; discriminate).
  induction s as [|c s IH].
  - destruct sub; [congruence|reflexivity].
  - cbn [Py.contains] in H. apply orb_false_iff in H as [H1 H2].
    rewrite count_step by assumption. exact (IH H2).
Qed.

(** The primitives on the values Python gives. *)
Example replace_examples :
  Py.replace "abcabc" "bc" "X" = "aXaX" /\
  Py.replace "aaa" "aa" "b" = "ba" /\
  Py.replace "abc" "" "-" = "-a-b-c-" /\
  Py.replace "" "" "-" = "-" /\
  Py.replace "test" "t" "tt" = "ttestt".
Proof. repeat split; reflexivity. Qed.

Example count_examples :
  Py.count "aaaa" "aa" = 2 /\ Py.count "ttestt" "tt" = 2 /\
  Py.count "abc" "" = 4 /\ Py.count "" "" = 1 /\ Py.count "abc" "x" = 0.
Proof. repeat split; reflexivity. Qed.

Example strip_examples :
  Py.strip ("  a b " ++ nl) = "a b" /\ Py.strip "   " = "" /\
  Py.lower "Out.PDF" = "out.pdf" /\
  Py.str_of_nat 120 = "120" /\ Py.str_of_Z (-7) = "-7" /\ Py.str_of_Z 0 = "0".
Proof. repeat split; reflexivity. Qed.

Example path_examples :
  PosixPath.dirname "a/b/c.pdf" = "a/b" /\
  PosixPath.dirname "c.pdf" = "" /\
  PosixPath.dirname "/c.pdf" = "/" /\
  PosixPath.basename "a/b/c.docx" = "c.docx" /\
  PosixPath.splitext "a.b.docx" = ("a.b", ".docx") /\
  PosixPath.splitext ".docx" = (".docx", "") /\
  PosixPath.join "a/b" "c.pdf" = "a/b/c.pdf" /\
  PosixPath.join "." "c.pdf" = "./c.pdf".
Proof. repeat split; reflexivity. Qed.

(** A string that starts with [sub] holds at least one occurrence of it. *)
Lemma count_positive (sub s : string) : 0 < Py.count (sub ++ s) sub.
Proof.
  destruct (String.eqb_spec sub "") as [->|Hne].
  - simpl. lia.
  - rewrite count_match by exact Hne. lia.
Qed.

Lemma interleave_starts (new s : string) :
  exists rest, Py.interleave new s = new ++ rest.
Proof.
  destruct s as [|c s]; simpl.
  - exists "". symmetry. apply append_empty_r.
  - eexists. reflexivity.
Qed.

(** ** Loops that thread the counter *)

Section Loops.

Context {A : Type}.
Implicit Types (f : A -> nat -> Result (A * nat)) (l : list A).

(** A loop whose steps succeed, each yielding [g x] and adding [h x]. *)
Lemma for_each_maps f (g : A -> A) (h : A -> nat) l n :
  (forall x m, x ∈ l -> f x m = Ok (g x, m + h x)) ->
  for_each f l n = Ok (map g l, n + sum_list_with h l).
Proof.
  revert n. induction l as [|x l IH]; intros n Hf; cbn [for_each map sum_list_with].
  - f_equal. f_equal. lia.
  - rewrite Hf by left. rewrite IH by (intros y m Hy; apply Hf; right; exact Hy).
    f_equal. f_equal. lia.
Qed.

(** A loop whose steps change nothing leaves the list as it was. *)
Lemma for_each_same f (h : A -> nat) l n :
  (forall x m, x ∈ l -> f x m = Ok (x, m + h x)) ->
  for_each f l n = Ok (l, n + sum_list_with h l).
Proof.
  intros Hf. rewrite (for_each_maps f (fun x => x) h) by exact Hf.
  rewrite map_id. reflexivity.
Qed.

(** What every step keeps, the loop keeps. *)
Lemma for_each_keeps {B} (e : A -> B) f l n l' n' :
  (forall x m x' m', f x m = Ok (x', m') -> e x' = e x) ->
  for_each f l n = Ok (l', n') -> map e l' = map e l.
Proof.
  intros Hf. revert n l' n'.
  induction l as [|x l IH]; intros n l' n'; cbn [for_each].
  - intros E. injection E as <- <-. reflexivity.
  - destruct (f x n) as [[x' n1]|e0] eqn:Ex; [|discriminate].
    destruct (for_each f l n1) as [[l1 n2]|e0] eqn:El; [|discriminate].
    intros E. injection E as <- <-. cbn [map].
    rewrite (Hf x n x' n1 Ex), (IH n1 l1 n2 El). reflexivity.
Qed.

Lemma sum_list_with_filter (P : A -> Prop) `{forall x, Decision (P x)}
  (h : A -> nat) l :
  sum_list_with (fun x => if decide (P x) then h x else 0) l
  = sum_list_with h (filter P l).
Proof.
  induction l as [|x l IH]; [reflexivity|].
  rewrite filter_cons. cbn [sum_list_with]. rewrite IH.
  destruct (decide (P x)); reflexivity.
Qed.

End Loops.

Lemma sum_list_with_bind {A B} (h : B -> nat) (k : A -> list B) (l : list A) :
  sum_list_with h (l ≫= k) = sum_list_with (fun x => sum_list_with h (k x)) l.
Proof.
  induction l as [|x l IH]; [reflexivity|].
  rewrite bind_cons, sum_list_with_app, IH. reflexivity.
Qed.

Lemma sum_list_with_ext {A} (h1 h2 : A -> nat) (l : list A) :
  (forall x, h1 x = h2 x) -> sum_list_with h1 l = sum_list_with h2 l.
Proof.
  intros E. induction l as [|x l IH]; [reflexivity|].
  cbn [sum_list_with]. rewrite E, IH. reflexivity.
Qed.

Lemma sum_list_with_zero {A} (l : list A) : sum_list_with (fun _ => 0) l = 0.
Proof. induction l as [|x l IH]; [reflexivity|exact IH]. Qed.

Lemma sum_list_with_ext_in {A} (h1 h2 : A -> nat) (l : list A) :
  (forall x, x ∈ l -> h1 x = h2 x) -> sum_list_with h1 l = sum_list_with h2 l.
Proof.
  intros E. induction l as [|x l IH]; [reflexivity|].
  cbn [sum_list_with]. rewrite E by left.
  rewrite IH by (intros y Hy; apply E; right; exact Hy). reflexivity.
Qed.

Lemma imap_same {A} (F : nat -> A -> A) (l : list A) :
  (forall i x, l !! i = Some x -> F i x = x) -> imap F l = l.
Proof.
  intros HF. apply list_eq. intros i. rewrite list_lookup_imap.
  destruct (l !! i) as [x|] eqn:E; cbn; [|reflexivity].
  rewrite (HF i x E). reflexivity.
Qed.

(** *** The loop over the cells a row lists *)

Section Listed.

Implicit Types (f : Cell -> nat -> Result (Cell * nat))
  (listed : list nat) (store : list Cell).

Lemma for_each_listed_app f (a b : list nat) store n :
  for_each_listed f (a ++ b) store n
  = match for_each_listed f a store n with
    | Raise e => Raise e
    | Ok (store', m) => for_each_listed f b store' m
    end.
Proof.
  revert store n. induction a as [|i a IH]; intros store n; cbn [app for_each_listed].
  - reflexivity.
  - destruct (store !! i) as [c|]; [|apply IH].
    destruct (f c n) as [[c' n1]|e]; [apply IH|reflexivity].
Qed.

(** Visits that change nothing leave the cells as they were, however
    often a cell is listed. *)
Lemma for_each_listed_same f (h : Cell -> nat) listed store n :
  (forall i c m, i ∈ listed -> store !! i = Some c -> f c m = Ok (c, m + h c)) ->
  for_each_listed f listed store n
  = Ok (store, n + sum_list_with h (yielded listed store)).
Proof.
  unfold yielded. revert n.
  induction listed as [|i listed IH]; intros n Hf; cbn [for_each_listed].
  - cbn. f_equal. f_equal. lia.
  - rewrite bind_cons, sum_list_with_app.
    destruct (store !! i) as [c|] eqn:Ec; cbn [option_list sum_list_with].
    + rewrite (Hf i c n) by (first [left | exact Ec]).
      rewrite list_insert_id by exact Ec.
      rewrite IH by (intros j d m Hj Hd; apply (Hf j); [right; exact Hj|exact Hd]).
      change (sum_list_with h (option_list (Some c))) with (h c + 0).
      f_equal. f_equal. lia.
    + rewrite IH by (intros j d m Hj Hd; apply (Hf j); [right; exact Hj|exact Hd]).
      change (sum_list_with h (option_list None)) with 0. reflexivity.
Qed.

(** Where no cell is listed twice, every listed cell is visited once,
    as it stood at the start. *)
Lemma for_each_listed_plain f (g : Cell -> Cell) (h : Cell -> nat) listed store n :
  NoDup listed ->
  (forall i c m, i ∈ listed -> store !! i = Some c -> f c m = Ok (g c, m + h c)) ->
  for_each_listed f listed store n
  = Ok (imap (fun i c => if decide (i ∈ listed) then g c else c) store,
        n + sum_list_with h (yielded listed store)).
Proof.
  unfold yielded. intros Hnd. revert store n.
  induction Hnd as [|i listed Hi Hnd IH]; intros store n Hf; cbn [for_each_listed].
  - f_equal. f_equal; [|cbn; lia].
    symmetry. apply imap_same.
    intros j c _. case_decide as Hj; [inversion Hj|reflexivity].
  - rewrite bind_cons, sum_list_with_app.
    destruct (store !! i) as [c|] eqn:Ec; cbn [option_list sum_list_with].
    + rewrite (Hf i c n) by (first [left | exact Ec]).
      rewrite IH.
      * f_equal. f_equal.
        -- apply list_eq. intros j. rewrite !list_lookup_imap.
           destruct (decide (j = i)) as [->|Hne].
           ++ rewrite list_lookup_insert_eq by (eapply lookup_lt_Some; exact Ec).
              rewrite Ec. cbn.
              rewrite decide_False by exact Hi.
              rewrite decide_True by left. reflexivity.
           ++ rewrite list_lookup_insert_ne by congruence.
              destruct (store !! j) as [d|]; cbn; [|reflexivity].
              f_equal. destruct (decide (j ∈ listed)) as [Hj|Hj].
              ** rewrite decide_True by (right; exact Hj). reflexivity.
              ** rewrite decide_False; [reflexivity|].
                 intros Hj'. apply elem_of_cons in Hj' as [E|Hj']; congruence.
        -- assert (Es : sum_list_with h (listed ≫= fun j => option_list (<[i:=g c]> store !! j))
                        = sum_list_with h (listed ≫= fun j => option_list (store !! j))).
           { rewrite !sum_list_with_bind. apply sum_list_with_ext_in.
             intros j Hj. rewrite list_lookup_insert_ne; [reflexivity|].
             intros ->. exact (Hi Hj). }
           rewrite Es.
           change (sum_list_with h (option_list (Some c))) with (h c + 0). lia.
      * intros j d m Hj Hd. apply (Hf j); [right; exact Hj|].
        rewrite list_lookup_insert_ne in Hd; [exact Hd|].
        intros ->. exact (Hi Hj).
    + rewrite IH by (intros j d m Hj Hd; apply (Hf j); [right; exact Hj|exact Hd]).
      change (sum_list_with h (option_list None)) with 0. cbn [plus].
      f_equal. f_equal. apply imap_ext. intros j d Hd. cbn.
      destruct (decide (j ∈ listed)) as [Hj|Hj].
      * rewrite decide_True by (right; exact Hj). reflexivity.
      * rewrite decide_False; [reflexivity|].
        intros Hj'. apply elem_of_cons in Hj' as [E|Hj']; congruence.
Qed.

(** What every visit keeps of a cell, the loop keeps of the cells. *)
Lemma for_each_listed_keeps {B} (e : Cell -> B) f listed store n store' n' :
  (forall c m c' m', f c m = Ok (c', m') -> e c' = e c) ->
  for_each_listed f listed store n = Ok (store', n') ->
  map e store' = map e store.
Proof.
  intros Hf. revert store n.
  induction listed as [|i listed IH]; intros store n; cbn [for_each_listed].
  - intros E. injection E as <- <-. reflexivity.
  - destruct (store !! i) as [c|] eqn:Ec; [|apply IH].
    destruct (f c n) as [[c' n1]|e0] eqn:Ef; [|discriminate].
    intros E. rewrite (IH _ _ E).
    rewrite list_fmap_insert, (Hf c n c' n1 Ef).
    apply list_insert_id. rewrite list_lookup_fmap, Ec. reflexivity.
Qed.

End Listed.

(** ** The loops of [replace_text] *)

Lemma contains_inside (sub a r b : string) :
  Py.contains sub r = true -> Py.contains sub (a ++ r ++ b) = true.
Proof.
  intros H. apply contains_spec in H as (x & y & ->).
  apply contains_spec. exists (a ++ x), (y ++ b).
  rewrite !append_assoc. reflexivity.
Qed.

(** A string found in a run is found in the text of its paragraph. *)
Lemma contains_paragraph_text (sub : string) (p : Paragraph) (r : Run) :
  r ∈ runs p -> Py.contains sub (text r) = true ->
  Py.contains sub (paragraph_text p) = true.
Proof.
  unfold paragraph_text. intros Hr H.
  induction (runs p) as [|q rs IH]; [inversion Hr|].
  cbn [map fold_right]. apply elem_of_cons in Hr as [->|Hr].
  - apply (contains_inside sub "" (text q)). exact H.
  - rewrite <- (append_empty_r (fold_right _ _ _)).
    apply contains_inside. exact (IH Hr).
Qed.

Lemma set_text_same (r : Run) : set_text r (text r) = r.
Proof. destruct r. reflexivity. Qed.

Lemma elem_of_block_paragraphs (p : Paragraph) (b : list Block) :
  BlockParagraph p ∈ b -> p ∈ block_paragraphs b.
Proof.
  induction b as [|[q|t] b IH]; intros H.
  - inversion H.
  - cbn [block_paragraphs]. apply elem_of_cons in H as [E|H].
    + injection E as ->. left.
    + right. exact (IH H).
  - cbn [block_paragraphs]. apply elem_of_cons in H as [E|H]; [discriminate|].
    exact (IH H).
Qed.

Lemma elem_of_block_tables (t : Table) (b : list Block) :
  BlockTable t ∈ b -> t ∈ block_tables b.
Proof.
  induction b as [|[q|u] b IH]; intros H.
  - inversion H.
  - cbn [block_tables]. apply elem_of_cons in H as [E|H]; [discriminate|].
    exact (IH H).
  - cbn [block_tables]. apply elem_of_cons in H as [E|H].
    + injection E as ->. left.
    + right. exact (IH H).
Qed.

Lemma elem_of_yielded (listed : list nat) (store : list Cell) (i : nat) (c : Cell) :
  i ∈ listed -> store !! i = Some c -> c ∈ yielded listed store.
Proof.
  intros Hi Hc. unfold yielded. apply list_elem_of_bind. exists i.
  split; [|exact Hi]. rewrite Hc. left.
Qed.

Lemma elem_of_table_paragraphs (t : Table) (i : nat) (c : Cell) (p : Paragraph) :
  i ∈ positions t -> table_cells t !! i = Some c -> p ∈ cell_paragraphs c ->
  p ∈ table_paragraphs t.
Proof.
  intros Hi Hc Hp. unfold table_paragraphs, listed_cells.
  apply list_elem_of_bind. exists c. split; [exact Hp|].
  exact (elem_of_yielded _ _ i c Hi Hc).
Qed.

Lemma elem_of_visited_body (doc : Document) (p : Paragraph) :
  BlockParagraph p ∈ body doc -> p ∈ visited_paragraphs doc.
Proof.
  intros H. unfold visited_paragraphs. apply elem_of_app. left.
  apply elem_of_block_paragraphs, H.
Qed.

Lemma elem_of_visited_table (doc : Document) (t : Table) (p : Paragraph) :
  BlockTable t ∈ body doc -> p ∈ table_paragraphs t -> p ∈ visited_paragraphs doc.
Proof.
  intros Ht Hp. unfold visited_paragraphs. apply elem_of_app. right.
  apply list_elem_of_bind. exists t. split; [exact Hp|].
  apply elem_of_block_tables, Ht.
Qed.

(** The rows of a table one after the other are one loop over its grid
    positions. *)
Lemma replace_in_rows_listed {File : Type} (lib : Library File)
  (find repl : string) (rs : list Row) (store : list Cell) (n : nat) :
  replace_in_rows lib find repl rs store n
  = for_each_listed (replace_in_cell lib find repl) (rs ≫= cells) store n.
Proof.
  revert store n. induction rs as [|r rs IH]; intros store n;
    cbn [replace_in_rows]; [reflexivity|].
  rewrite bind_cons, for_each_listed_app. unfold replace_in_row.
  destruct (for_each_listed _ (cells r) store n) as [[s m]|e]; [apply IH|reflexivity].
Qed.

Section ReplaceLoops.

Context {File : Type} (lib : Library File).
Variables find repl : string.

(** *** When the library takes every text it is given *)

Lemma replace_in_run_ok r n :
  accepted lib find repl r ->
  replace_in_run lib find repl r n
  = Ok (set_text r (rewritten lib find repl (text r)), n + run_gain lib find repl r).
Proof.
  unfold accepted, replace_in_run, rewritten, run_gain, assign_text.
  destruct (Py.contains find (text r)); intros H.
  - rewrite H by reflexivity. reflexivity.
  - rewrite set_text_same, Nat.add_0_r. reflexivity.
Qed.

Lemma rewritten_absent (t : string) :
  Py.contains find t = false -> rewritten lib find repl t = t.
Proof. intros H. unfold rewritten. rewrite H. reflexivity. Qed.

Lemma replace_in_paragraph_ok p n :
  (forall r, r ∈ runs p -> accepted lib find repl r) ->
  replace_in_paragraph lib find repl p n
  = Ok (map_paragraph_runs (rewritten lib find repl) p,
        n + paragraph_gain lib find repl p).
Proof.
  intros Hacc. unfold replace_in_paragraph, paragraph_gain, map_paragraph_runs.
  destruct (Py.contains find (paragraph_text p)) eqn:E.
  - rewrite (for_each_maps _ (fun r => set_text r (rewritten lib find repl (text r)))
               (run_gain lib find repl))
      by (intros r m Hr; apply replace_in_run_ok, Hacc, Hr).
    reflexivity.
  - rewrite Nat.add_0_r. f_equal. f_equal.
    assert (Hid : map (fun r => set_text r (rewritten lib find repl (text r))) (runs p)
                  = runs p).
    { rewrite <- (map_id (runs p)) at 2. apply map_ext_in. intros r Hr.
      apply list_elem_of_In in Hr.
      destruct (Py.contains find (text r)) eqn:Er.
      - rewrite (contains_paragraph_text find p r Hr Er) in E. discriminate.
      - rewrite (rewritten_absent _ Er). apply set_text_same. }
    rewrite Hid. destruct p. reflexivity.
Qed.

Lemma replace_in_cell_ok c n :
  (forall p r, p ∈ cell_paragraphs c -> r ∈ runs p -> accepted lib find repl r) ->
  replace_in_cell lib find repl c n
  = Ok (map_cell_runs (rewritten lib find repl) c,
        n + sum_list_with (paragraph_gain lib find repl) (cell_paragraphs c)).
Proof.
  intros Hacc. unfold replace_in_cell, map_cell_runs.
  rewrite (for_each_maps _ (map_paragraph_runs (rewritten lib find repl))
             (paragraph_gain lib find repl))
    by (intros p m Hp; apply replace_in_paragraph_ok; intros r Hr;
        exact (Hacc p r Hp Hr)).
  reflexivity.
Qed.

Lemma sum_paragraph_gain_table t :
  sum_list_with
    (fun c => sum_list_with (paragraph_gain lib find repl) (cell_paragraphs c))
    (yielded (positions t) (table_cells t))
  = sum_list_with (paragraph_gain lib find repl) (table_paragraphs t).
Proof.
  unfold table_paragraphs, listed_cells. rewrite sum_list_with_bind. reflexivity.
Qed.

Lemma replace_in_table_ok t n :
  NoDup (positions t) ->
  (forall p r, p ∈ table_paragraphs t -> r ∈ runs p -> accepted lib find repl r) ->
  replace_in_table lib find repl t n
  = Ok (map_table_runs (rewritten lib find repl) t,
        n + sum_list_with (paragraph_gain lib find repl) (table_paragraphs t)).
Proof.
  intros Hnd Hacc. unfold replace_in_table, map_table_runs.
  rewrite replace_in_rows_listed. fold (positions t).
  rewrite (for_each_listed_plain _ (map_cell_runs (rewritten lib find repl))
             (fun c => sum_list_with (paragraph_gain lib find repl) (cell_paragraphs c))
             (positions t) (table_cells t) n Hnd).
  - rewrite sum_paragraph_gain_table. reflexivity.
  - intros i c m Hi Hc. apply replace_in_cell_ok. intros p r Hp Hr.
    apply (Hacc p r); [|exact Hr].
    exact (elem_of_table_paragraphs t i c p Hi Hc Hp).
Qed.

(** *** When every visit leaves the text it finds *)

Lemma replace_in_run_same r n :
  keeps_text lib find repl r ->
  replace_in_run lib find repl r n = Ok (r, n + run_gain lib find repl r).
Proof.
  unfold keeps_text, replace_in_run, run_gain, assign_text.
  destruct (Py.contains find (text r)); intros H.
  - destruct (H eq_refl) as [Hf Hs]. rewrite Hf, Hs, set_text_same.
    cbn [text]. reflexivity.
  - rewrite Nat.add_0_r. reflexivity.
Qed.

Lemma replace_in_paragraph_same p n :
  (forall r, r ∈ runs p -> keeps_text lib find repl r) ->
  replace_in_paragraph lib find repl p n = Ok (p, n + paragraph_gain lib find repl p).
Proof.
  intros Hk. unfold replace_in_paragraph, paragraph_gain.
  destruct (Py.contains find (paragraph_text p)).
  - rewrite (for_each_same _ (run_gain lib find repl))
      by (intros r m Hr; apply replace_in_run_same, Hk, Hr).
    destruct p. reflexivity.
  - rewrite Nat.add_0_r. reflexivity.
Qed.

Lemma replace_in_cell_same c n :
  (forall p r, p ∈ cell_paragraphs c -> r ∈ runs p -> keeps_text lib find repl r) ->
  replace_in_cell lib find repl c n
  = Ok (c, n + sum_list_with (paragraph_gain lib find repl) (cell_paragraphs c)).
Proof.
  intros Hk. unfold replace_in_cell.
  rewrite (for_each_same _ (paragraph_gain lib find repl))
    by (intros p m Hp; apply replace_in_paragraph_same; intros r Hr;
        exact (Hk p r Hp Hr)).
  destruct c. reflexivity.
Qed.

Lemma replace_in_table_same t n :
  (forall p r, p ∈ table_paragraphs t -> r ∈ runs p -> keeps_text lib find repl r) ->
  replace_in_table lib find repl t n
  = Ok (t, n + sum_list_with (paragraph_gain lib find repl) (table_paragraphs t)).
Proof.
  intros Hk. unfold replace_in_table.
  rewrite replace_in_rows_listed. fold (positions t).
  rewrite (for_each_listed_same _
             (fun c => sum_list_with (paragraph_gain lib find repl) (cell_paragraphs c))).
  - rewrite sum_paragraph_gain_table. destruct t. reflexivity.
  - intros i c m Hi Hc. apply replace_in_cell_same. intros p r Hp Hr.
    apply (Hk p r); [|exact Hr].
    exact (elem_of_table_paragraphs t i c p Hi Hc Hp).
Qed.

End ReplaceLoops.

(** *** The two loops over the body *)

Lemma sum_on_paragraphs (h : Paragraph -> nat) (b : list Block) :
  sum_list_with
    (fun x => match x with BlockParagraph p => h p | BlockTable _ => 0 end) b
  = sum_list_with h (block_paragraphs b).
Proof.
  induction b as [|[p|t] b IH]; [reflexivity| |]; cbn [sum_list_with block_paragraphs];
    rewrite IH; reflexivity.
Qed.

Lemma sum_on_tables (h : Table -> nat) (b : list Block) :
  sum_list_with
    (fun x => match x with BlockParagraph _ => 0 | BlockTable t => h t end) b
  = sum_list_with h (block_tables b).
Proof.
  induction b as [|[p|t] b IH]; [reflexivity| |]; cbn [sum_list_with block_tables];
    rewrite IH; reflexivity.
Qed.

Lemma sum_visited (h : Paragraph -> nat) (doc : Document) :
  sum_list_with h (paragraphs doc)
  + sum_list_with (fun t => sum_list_with h (table_paragraphs t)) (tables doc)
  = sum_list_with h (visited_paragraphs doc).
Proof.
  unfold visited_paragraphs. rewrite sum_list_with_app, sum_list_with_bind.
  reflexivity.
Qed.

Section ReplaceDocument.

Context {File : Type} (lib : Library File).
Variables find repl : string.

(** Where no cell is listed twice and the library takes every text, the
    traversal yields the document with every visited run rewritten, and
    the sum of what the visited paragraphs add. *)
Lemma replace_in_document_ok (doc : Document) :
  plain_tables doc ->
  (forall p r, p ∈ visited_paragraphs doc -> r ∈ runs p -> accepted lib find repl r) ->
  replace_in_document lib find repl doc
  = Ok (map_document_runs (rewritten lib find repl) doc,
        sum_list_with (paragraph_gain lib find repl) (visited_paragraphs doc)).
Proof.
  intros Hplain Hacc. unfold replace_in_document.
  rewrite (for_each_maps _
             (fun b => match b with
                       | BlockParagraph p =>
                           BlockParagraph (map_paragraph_runs (rewritten lib find repl) p)
                       | BlockTable _ => b
                       end)
             (fun b => match b with
                       | BlockParagraph p => paragraph_gain lib find repl p
                       | BlockTable _ => 0
                       end)).
  2:{ intros [p|t] m Hb; cbn [on_paragraph].
      - rewrite replace_in_paragraph_ok; [reflexivity|].
        intros r Hr. apply (Hacc p r); [|exact Hr].
        apply elem_of_visited_body, Hb.
      - rewrite Nat.add_0_r. reflexivity. }
  rewrite (for_each_maps _
             (fun b => match b with
                       | BlockParagraph _ => b
                       | BlockTable t =>
                           BlockTable (map_table_runs (rewritten lib find repl) t)
                       end)
             (fun b => match b with
                       | BlockParagraph _ => 0
                       | BlockTable t =>
                           sum_list_with (paragraph_gain lib find repl)
                             (table_paragraphs t)
                       end)).
  2:{ intros x m Hx. apply list_elem_of_fmap in Hx as (b & -> & Hb).
      destruct b as [p|t]; cbn [on_table].
      - rewrite Nat.add_0_r. reflexivity.
      - rewrite replace_in_table_ok; [reflexivity| |].
        + unfold plain_tables in Hplain. rewrite Forall_forall in Hplain.
          apply Hplain. apply elem_of_block_tables, Hb.
        + intros p r Hp Hr. apply (Hacc p r); [|exact Hr].
          exact (elem_of_visited_table doc t p Hb Hp). }
  f_equal. f_equal.
  - unfold map_document_runs. f_equal. rewrite map_map. apply map_ext.
    intros [p|t]; reflexivity.
  - rewrite sum_on_paragraphs, <- sum_visited, Nat.add_0_l. f_equal.
    etransitivity;
      [exact (sum_on_tables
                (fun u => sum_list_with (paragraph_gain lib find repl)
                            (table_paragraphs u)) _)|].
    f_equal. unfold tables.
    induction (body doc) as [|[p|t] b IH]; cbn [map block_tables];
      [reflexivity|exact IH|rewrite IH; reflexivity].
Qed.

(** Where every visit leaves the text it finds, the traversal yields
    the document it was given, however its cells are listed. *)
Lemma replace_in_document_same (doc : Document) :
  (forall p r, p ∈ visited_paragraphs doc -> r ∈ runs p -> keeps_text lib find repl r) ->
  replace_in_document lib find repl doc
  = Ok (doc, sum_list_with (paragraph_gain lib find repl) (visited_paragraphs doc)).
Proof.
  intros Hk. unfold replace_in_document.
  rewrite (for_each_same _
             (fun b => match b with
                       | BlockParagraph p => paragraph_gain lib find repl p
                       | BlockTable _ => 0
                       end)).
  2:{ intros [p|t] m Hb; cbn [on_paragraph].
      - rewrite replace_in_paragraph_same; [reflexivity|].
        intros r Hr. apply (Hk p r); [|exact Hr].
        apply elem_of_visited_body, Hb.
      - rewrite Nat.add_0_r. reflexivity. }
  rewrite (for_each_same _
             (fun b => match b with
                       | BlockParagraph _ => 0
                       | BlockTable t =>
                           (fun u => sum_list_with (paragraph_gain lib find repl)
                                       (table_paragraphs u)) t
                       end)).
  2:{ intros [p|t] m Hb; cbn [on_table].
      - rewrite Nat.add_0_r. reflexivity.
      - rewrite replace_in_table_same; [reflexivity|].
        intros p r Hp Hr. apply (Hk p r); [|exact Hr].
        exact (elem_of_visited_table doc t p Hb Hp). }
  rewrite sum_on_paragraphs, Nat.add_0_l, <- sum_visited.
  assert (Ed : set_body doc (body doc) = doc) by (destruct doc; reflexivity).
  rewrite Ed. do 3 f_equal.
  exact (sum_on_tables
                    (fun u => sum_list_with (paragraph_gain lib find repl)
                                (table_paragraphs u)) _).
Qed.

(** *** What the traversal keeps *)

Lemma replace_in_run_keeps r n r' n' :
  replace_in_run lib find repl r n = Ok (r', n') -> set_text r' "" = set_text r "".
Proof.
  unfold replace_in_run, assign_text.
  destruct (Py.contains find (text r)).
  - destruct (text_fault lib _); [discriminate|].
    intros E. injection E as <- _. reflexivity.
  - intros E. injection E as <- _. reflexivity.
Qed.

Lemma replace_in_paragraph_keeps p n p' n' :
  replace_in_paragraph lib find repl p n = Ok (p', n') ->
  map_paragraph_runs (fun _ => "") p' = map_paragraph_runs (fun _ => "") p.
Proof.
  unfold replace_in_paragraph.
  destruct (Py.contains find (paragraph_text p)).
  - destruct (for_each _ (runs p) n) as [[rs m]|e] eqn:E; [|discriminate].
    intros E'. injection E' as <- _.
    unfold map_paragraph_runs, set_runs. cbn [style runs]. f_equal.
    exact (for_each_keeps (fun r => set_text r "") _ _ _ _ _
             replace_in_run_keeps E).
  - intros E. injection E as <- _. reflexivity.
Qed.

Lemma replace_in_cell_keeps c n c' n' :
  replace_in_cell lib find repl c n = Ok (c', n') ->
  map_cell_runs (fun _ => "") c' = map_cell_runs (fun _ => "") c.
Proof.
  unfold replace_in_cell.
  destruct (for_each _ (cell_paragraphs c) n) as [[ps m]|e] eqn:E; [|discriminate].
  intros E'. injection E' as <- _.
  unfold map_cell_runs. cbn [cell_paragraphs]. f_equal.
  exact (for_each_keeps (map_paragraph_runs (fun _ => "")) _ _ _ _ _
           replace_in_paragraph_keeps E).
Qed.

Lemma replace_in_table_keeps t n t' n' :
  replace_in_table lib find repl t n = Ok (t', n') ->
  without_text_block (BlockTable t') = without_text_block (BlockTable t).
Proof.
  unfold replace_in_table. rewrite replace_in_rows_listed.
  destruct (for_each_listed _ _ (table_cells t) n) as [[store m]|e] eqn:E;
    [|discriminate].
  intros E'. injection E' as <- _.
  cbn [without_text_block table_cells rows]. do 2 f_equal.
  exact (for_each_listed_keeps (map_cell_runs (fun _ => "")) _ _ _ _ _ _
           replace_in_cell_keeps E).
Qed.

Lemma on_paragraph_keeps x m x' m' :
  on_paragraph (replace_in_paragraph lib find repl) x m = Ok (x', m') ->
  without_text_block x' = without_text_block x.
Proof.
  destruct x as [p|t]; cbn [on_paragraph].
  - destruct (replace_in_paragraph lib find repl p m) as [[p' k]|e] eqn:Ep;
      [|discriminate].
    intros Ex. injection Ex as <- _. cbn [without_text_block]. f_equal.
    exact (replace_in_paragraph_keeps _ _ _ _ Ep).
  - intros Ex. injection Ex as <- _. reflexivity.
Qed.

Lemma on_table_keeps x m x' m' :
  on_table (replace_in_table lib find repl) x m = Ok (x', m') ->
  without_text_block x' = without_text_block x.
Proof.
  destruct x as [p|t]; cbn [on_table].
  - intros Ex. injection Ex as <- _. reflexivity.
  - destruct (replace_in_table lib find repl t m) as [[t' k]|e] eqn:Et;
      [|discriminate].
    intros Ex. injection Ex as <- _. exact (replace_in_table_keeps _ _ _ _ Et).
Qed.

(** Whatever the traversal yields has the runs, the fonts, the styles,
    the cells and the properties of the document it was given: only
    the texts of runs differ. *)
Lemma replace_in_document_keeps (doc doc' : Document) (n : nat) :
  replace_in_document lib find repl doc = Ok (doc', n) ->
  without_text doc' = without_text doc.
Proof.
  unfold replace_in_document.
  destruct (for_each _ (body doc) 0) as [[b1 n1]|e] eqn:E1; [|discriminate].
  destruct (for_each _ b1 n1) as [[b2 n2]|e] eqn:E2; [|discriminate].
  intros E. injection E as <- _.
  unfold without_text, set_body. cbn [core_properties body]. f_equal.
  transitivity (map without_text_block b1).
  - exact (for_each_keeps without_text_block _ _ _ _ _ on_table_keeps E2).
  - exact (for_each_keeps without_text_block _ _ _ _ _ on_paragraph_keeps E1).
Qed.

End ReplaceDocument.

(** ** The count of [replace_text] *)

(** Where the library stores the substituted texts as given, what the
    visits add up to is the count the specification states. *)
Lemma stated_count_gain {File : Type} (lib : Library File)
  (find repl : string) (doc : Document) :
  (forall p r, p ∈ visited_paragraphs doc -> r ∈ runs p ->
     Py.contains find (text r) = true ->
     stored_text lib (Py.replace (text r) find repl) = Py.replace (text r) find repl) ->
  sum_list_with (paragraph_gain lib find repl) (visited_paragraphs doc)
  = stated_count find repl doc.
Proof.
  intros Hs. unfold stated_count, matching_paragraphs.
  rewrite <- sum_list_with_filter.
  apply sum_list_with_ext_in. intros p Hp.
  unfold paragraph_gain.
  destruct (decide (Py.contains find (paragraph_text p) = true)) as [E|E].
  - rewrite E. unfold matching_runs. rewrite <- sum_list_with_filter.
    apply sum_list_with_ext_in. intros r Hr. unfold run_gain, occurrences_after.
    destruct (decide (Py.contains find (text r) = true)) as [Er|Er].
    + rewrite Er, (Hs p r Hp Hr Er). reflexivity.
    + apply not_true_is_false in Er. rewrite Er. reflexivity.
  - apply not_true_is_false in E. rewrite E. reflexivity.
Qed.

(** What the quantified hypotheses on visited runs come to on a given
    document. *)
Lemma on_visited_runs (P : Run -> Prop) (doc : Document) :
  Forall (fun p => Forall P (runs p)) (visited_paragraphs doc) ->
  forall p r, p ∈ visited_paragraphs doc -> r ∈ runs p -> P r.
Proof.
  intros H p r Hp Hr. rewrite Forall_forall in H.
  specialize (H p Hp). rewrite Forall_forall in H. exact (H r Hr).
Qed.

Section WithLibrary.

Context {File : Type} (lib : Library File).
Implicit Types (fs : gmap string File) (doc : Document).

Lemma check_file_exists_Some fs p f :
  fs !! resolve lib p = Some f -> check_file_exists lib fs p = true.
Proof.
  intros H. unfold check_file_exists. apply bool_decide_eq_true. eauto.
Qed.

Lemma check_file_exists_None fs p :
  fs !! resolve lib p = None -> check_file_exists lib fs p = false.
Proof.
  intros H. unfold check_file_exists. apply bool_decide_eq_false.
  rewrite H. intros [x Hx]. discriminate.
Qed.

Lemma check_file_exists_false fs p :
  check_file_exists lib fs p = false -> fs !! resolve lib p = None.
Proof.
  unfold check_file_exists. intros H. apply bool_decide_eq_false in H.
  destruct (fs !! resolve lib p) eqn:E; [|reflexivity].
  exfalso. apply H. eauto.
Qed.

(** What [replace_text] returns on a document it could open, in terms
    of the outcome of its traversal. *)
Lemma replace_text_opened fs filename find repl f doc :
  let path := ensure_docx_extension filename in
  fs !! resolve lib path = Some f ->
  parse lib f = Ok doc ->
  replace_text lib filename find repl fs =
    match replace_in_document lib find repl doc with
    | Raise e => ("Error replacing text: " ++ e, fs)
    | Ok (doc', n) =>
        if (0 <? n)%nat then
          match save_error lib fs path with
          | Some e => ("Error replacing text: " ++ e, fs)
          | None =>
              ("Replaced " ++ Py.str_of_nat n ++ " occurrence(s) of '"
               ++ find ++ "' with '" ++ repl ++ "'",
               <[resolve lib path := render lib doc']> fs)
          end
        else ("No occurrences of '" ++ find ++ "' found", fs)
    end.
Proof.
  intros path Hf Hdoc. unfold replace_text. fold path.
  rewrite (check_file_exists_Some _ _ _ Hf). cbn [negb].
  unfold attempt, replace_text_body, bind, Document_open, lift.
  rewrite Hf, Hdoc.
  destruct (replace_in_document lib find repl doc) as [[doc' n]|e]; [|reflexivity].
  destruct (0 <? n)%nat; [|reflexivity].
  unfold Document_save. destruct (save_error lib fs path); reflexivity.
Qed.

End WithLibrary.

(** C1 (amended).  On a document it could open, in which no cell of a
    table is listed at two grid positions, and where the library stores
    every substituted text as given, the counter of [replace_text] is
    the sum, over the visited paragraphs (those of the body, then those
    of every cell of every table) whose text contains [find], and over
    the runs of such a paragraph whose own text contains [find], of the
    occurrences of [repl] in the run's text after the substitution; the
    tool reports that number when it is positive. *)
Theorem replace_text_reports_stated_count {File : Type} (lib : Library File)
  (fs : gmap string File) (filename find repl : string) (f : File) (doc : Document) :
  let path := ensure_docx_extension filename in
  let n := stated_count find repl doc in
  fs !! resolve lib path = Some f ->
  parse lib f = Ok doc ->
  plain_tables doc ->
  (forall p r, p ∈ visited_paragraphs doc -> r ∈ runs p ->
     Py.contains find (text r) = true ->
     stores_as_given lib (Py.replace (text r) find repl)) ->
  replace_in_document lib find repl doc
  = Ok (map_document_runs (rewritten lib find repl) doc, n) /\
  replace_text lib filename find repl fs =
    if (0 <? n)%nat then
      match save_error lib fs path with
      | Some e => ("Error replacing text: " ++ e, fs)
      | None =>
          ("Replaced " ++ Py.str_of_nat n ++ " occurrence(s) of '"
           ++ find ++ "' with '" ++ repl ++ "'",
           <[resolve lib path :=
               render lib (map_document_runs (rewritten lib find repl) doc)]> fs)
      end
    else ("No occurrences of '" ++ find ++ "' found", fs).
Proof.
  intros path n Hf Hdoc Hplain Hgiven.
  assert (E : replace_in_document lib find repl doc
              = Ok (map_document_runs (rewritten lib find repl) doc, n)).
  { rewrite replace_in_document_ok.
    - unfold n. rewrite (stated_count_gain lib find repl doc); [reflexivity|].
      intros p r Hp Hr Hc. exact (proj2 (Hgiven p r Hp Hr Hc)).
    - exact Hplain.
    - intros p r Hp Hr Hc. exact (proj1 (Hgiven p r Hp Hr Hc)). }
  split; [exact E|].
  rewrite (replace_text_opened lib fs filename find repl f doc Hf Hdoc), E.
  reflexivity.
Qed.

Lemma replace_text_reports_stated_count_witness :
  stated_count "t" "tt" Demo.report = 4 /\
  replace_text Demo.lib "a" "t" "tt" (Demo.holding Demo.report)
  = ("Replaced 4 occurrence(s) of 't' with 'tt'",
     Demo.holding
       (Demo.document
          [BlockParagraph (Demo.para [Demo.plain "ttestt"; Demo.plain "xttx"]);
           Demo.one_cell [Demo.para [Demo.plain "tt"]];
           BlockParagraph (Demo.para [Demo.plain "no"])])).
Proof.
  split; [reflexivity|].
  assert (Hplain : plain_tables Demo.report) by by_evaluation.
  assert (Hgiven :
            Forall (fun p =>
                      Forall (fun r => Py.contains "t" (text r) = true ->
                                       stores_as_given Demo.lib (Py.replace (text r) "t" "tt"))
                        (runs p))
              (visited_paragraphs Demo.report)) by by_evaluation.
  pose proof (replace_text_reports_stated_count Demo.lib (Demo.holding Demo.report)
                "a" "t" "tt" (Demo.Docx Demo.report) Demo.report eq_refl eq_refl
                Hplain (on_visited_runs _ _ Hgiven)) as [_ Hmsg].
  rewrite Hmsg. vm_compute. reflexivity.
Defined.

(** The count the claim states is not always the one the tool arrives
    at.  A carriage return given to a run reads back as a line feed, so
    the tool finds no carriage return in the texts it has just written,
    reports that nothing occurred and saves nothing, where four
    substitutions were stated.  A merged cell is yielded once for each
    grid position it covers: its paragraphs are visited again, as the
    first visit left them, and the tool counts three where two were
    stated. *)
Lemma replace_text_count_differs :
  stated_count "t" Demo.carriage_return Demo.report = 4 /\
  replace_text Demo.lib "a" "t" Demo.carriage_return (Demo.holding Demo.report)
  = ("No occurrences of 't' found", Demo.holding Demo.report) /\
  stated_count "t" "tt" Demo.merged = 2 /\
  replace_text Demo.lib "a" "t" "tt" (Demo.holding Demo.merged)
  = ("Replaced 3 occurrence(s) of 't' with 'tt'",
     Demo.holding (Demo.document [Demo.merged_cell [Demo.para [Demo.plain "tttt"]]])).
Proof.
  split; [reflexivity|]. split; [vm_compute; reflexivity|].
  split; [reflexivity|]. vm_compute. reflexivity.
Qed.

(** ** A match split across runs *)

(** C2.  When [find] occurs in the text of some visited paragraph but in
    the text of no single run, the traversal of [replace_text] rewrites
    no run and counts nothing, and the tool answers "No occurrences"
    without saving: the file system is left as it was. *)
Theorem replace_text_ignores_split_match {File : Type} (lib : Library File)
  (fs : gmap string File) (filename find repl : string) (f : File) (doc : Document) :
  fs !! resolve lib (ensure_docx_extension filename) = Some f ->
  parse lib f = Ok doc ->
  (exists p, p ∈ visited_paragraphs doc /\ Py.contains find (paragraph_text p) = true) ->
  (forall p r, p ∈ visited_paragraphs doc -> r ∈ runs p ->
               Py.contains find (text r) = false) ->
  replace_in_document lib find repl doc = Ok (doc, 0) /\
  replace_text lib filename find repl fs
  = ("No occurrences of '" ++ find ++ "' found", fs).
Proof.
  intros Hf Hdoc _ Hruns.
  assert (E : replace_in_document lib find repl doc = Ok (doc, 0)).
  { rewrite replace_in_document_same.
    - f_equal. f_equal.
      rewrite (sum_list_with_ext_in _ (fun _ => 0)).
      + apply sum_list_with_zero.
      + intros p Hp. unfold paragraph_gain.
        destruct (Py.contains find (paragraph_text p)); [|reflexivity].
        rewrite (sum_list_with_ext_in _ (fun _ => 0)).
        * apply sum_list_with_zero.
        * intros r Hr. unfold run_gain. rewrite (Hruns p r Hp Hr). reflexivity.
    - intros p r Hp Hr Hc. rewrite (Hruns p r Hp Hr) in Hc. discriminate. }
  split; [exact E|].
  rewrite (replace_text_opened lib fs filename find repl f doc Hf Hdoc), E.
  reflexivity.
Qed.

Lemma replace_text_ignores_split_match_witness :
  Py.contains "world" "world" = true /\
  replace_in_document Demo.lib "world" "earth" Demo.split_word
  = Ok (Demo.split_word, 0) /\
  replace_text Demo.lib "a" "world" "earth" (Demo.holding Demo.split_word)
  = ("No occurrences of 'world' found", Demo.holding Demo.split_word).
Proof.
  split; [reflexivity|].
  assert (Hruns :
            Forall (fun p => Forall (fun r => Py.contains "world" (text r) = false) (runs p))
              (visited_paragraphs Demo.split_word)) by by_evaluation.
  apply (replace_text_ignores_split_match Demo.lib (Demo.holding Demo.split_word)
           "a" "world" "earth" (Demo.Docx Demo.split_word) Demo.split_word
           eq_refl eq_refl).
  - eexists. split; [left|reflexivity].
  - exact (on_visited_runs _ _ Hruns).
Defined.

(** ** The default extension *)

Lemma ensure_docx_extension_appended (filename : string) :
  lacks_extension filename ->
  ensure_docx_extension (filename ++ ".docx") = ensure_docx_extension filename.
Proof.
  intros H. unfold ensure_docx_extension.
  rewrite endswith_app, H. reflexivity.
Qed.

Lemma ensure_docx_extension_endswith (filename : string) :
  Py.endswith (ensure_docx_extension filename) ".docx" = true.
Proof.
  unfold ensure_docx_extension.
  destruct (Py.endswith filename ".docx") eqn:E; cbn [negb].
  - exact E.
  - apply endswith_app.
Qed.

Lemma ensure_docx_extension_idempotent (filename : string) :
  ensure_docx_extension (ensure_docx_extension filename)
  = ensure_docx_extension filename.
Proof.
  unfold ensure_docx_extension at 1.
  rewrite ensure_docx_extension_endswith. reflexivity.
Qed.

(** One argument at a time. *)
Lemma invoke_appended {File : Type} (lib : Library File) (c c' : Call) :
  appended c c' -> invoke lib c' = invoke lib c.
Proof.
  intros H. destruct H as
    [f H|f H|s t H|s t H|f t a H|f t a H|f t l H|f a b H|s t H];
    cbn [invoke].
  - unfold read_document. rewrite (ensure_docx_extension_appended f H). reflexivity.
  - unfold get_document_info. rewrite (ensure_docx_extension_appended f H). reflexivity.
  - unfold copy_document. rewrite (ensure_docx_extension_appended s H). reflexivity.
  - unfold copy_document. rewrite (ensure_docx_extension_appended t H). reflexivity.
  - unfold create_document. rewrite (ensure_docx_extension_appended f H). reflexivity.
  - unfold write_text. rewrite (ensure_docx_extension_appended f H). reflexivity.
  - unfold add_heading. rewrite (ensure_docx_extension_appended f H). reflexivity.
  - unfold replace_text. rewrite (ensure_docx_extension_appended f H). reflexivity.
  - unfold export_to_pdf. rewrite (ensure_docx_extension_appended s H). reflexivity.
Qed.

(** C3.  A call with a file name that lacks the document extension
    behaves as the same call with [.docx] already appended to it: it
    returns the same string and leaves the same file system.  The file
    names are the arguments that name a Word document: the file name of
    [read_document], [get_document_info], [create_document],
    [write_text], [add_heading] and [replace_text], either file name of
    [copy_document], the source of [export_to_pdf]; any number of them
    may have the extension appended. *)
Theorem appended_extension_same_behaviour {File : Type} (lib : Library File)
  (c c' : Call) (fs : gmap string File) :
  rtc appended c c' -> invoke lib c' fs = invoke lib c fs.
Proof.
  intros H. induction H as [c|c c1 c' Hstep _ IH].
  - reflexivity.
  - rewrite IH. rewrite (invoke_appended lib c c1 Hstep). reflexivity.
Qed.

Lemma appended_extension_same_behaviour_witness :
  invoke Demo.lib (CopyDocument "a.docx" "copy.docx") (Demo.holding Demo.report)
  = invoke Demo.lib (CopyDocument "a" "copy") (Demo.holding Demo.report).
Proof.
  apply (appended_extension_same_behaviour Demo.lib
           (CopyDocument "a" "copy") (CopyDocument "a.docx" "copy.docx")).
  apply (rtc_l appended _ (CopyDocument "a.docx" "copy")).
  - apply (appended_copy_source "a" "copy"). reflexivity.
  - apply rtc_once. apply (appended_copy_target "a.docx" "copy"). reflexivity.
Defined.

(** ** Rejected calls write nothing *)

(** C4.  [add_heading] with a level below 1 or above 6 returns the
    invalid-level error and leaves the file system as it was: the file at
    the normalised path is neither changed nor created. *)
Theorem add_heading_rejects_level {File : Type} (lib : Library File)
  (fs : gmap string File) (filename text : string) (level : Z) :
  (level < 1 \/ 6 < level)%Z ->
  add_heading lib filename text level fs
  = ("Error: Heading level must be between 1 and 6", fs) /\
  snd (add_heading lib filename text level fs)
    !! resolve lib (ensure_docx_extension filename)
  = fs !! resolve lib (ensure_docx_extension filename).
Proof.
  intros H. unfold add_heading.
  replace ((level <? 1) || (level >? 6))%Z with true; [split; reflexivity|].
  symmetry. apply orb_true_iff.
  destruct H as [H|H]; [left; apply Z.ltb_lt; exact H|right].
  rewrite Z.gtb_ltb. apply Z.ltb_lt. exact H.
Qed.

Lemma add_heading_rejects_level_witness :
  add_heading Demo.lib "notes" "Title" 7 ∅
  = ("Error: Heading level must be between 1 and 6", ∅) /\
  snd (add_heading Demo.lib "notes" "Title" 7 ∅) !! "notes.docx" = None.
Proof.
  assert (H : (7 < 1 \/ 6 < 7)%Z) by (right; lia).
  exact (add_heading_rejects_level Demo.lib ∅ "notes" "Title" 7 H).
Defined.

(** C5 (amended).  [copy_document] with an absent source returns the
    not-found error, whether or not the target exists; with a source
    that exists and a target that exists it returns the already-exists
    error; either way the file system is left as it was. *)
Theorem copy_document_rejects {File : Type} (lib : Library File)
  (fs : gmap string File) (source_filename target_filename : string) :
  let source := ensure_docx_extension source_filename in
  let target := ensure_docx_extension target_filename in
  check_file_exists lib fs source = false \/ check_file_exists lib fs target = true ->
  copy_document lib source_filename target_filename fs
  = (if check_file_exists lib fs source
     then "Error: Target document '" ++ target ++ "' already exists"
     else "Error: Source document '" ++ source ++ "' does not exist",
     fs).
Proof.
  intros source target H. unfold copy_document. fold source target.
  destruct (check_file_exists lib fs source); cbn [negb]; [|reflexivity].
  destruct H as [H|H]; [discriminate|]. rewrite H. reflexivity.
Qed.

Lemma copy_document_rejects_witness :
  copy_document Demo.lib "a" "b" Demo.source_and_target
  = ("Error: Target document 'b.docx' already exists", Demo.source_and_target).
Proof.
  apply (copy_document_rejects Demo.lib Demo.source_and_target "a" "b").
  right. reflexivity.
Defined.

(** The statement by the letter asks for the already-exists error
    whenever the target exists; with the source absent the tool answers
    not-found. *)
Lemma copy_document_target_exists_source_absent :
  check_file_exists Demo.lib Demo.target_only (ensure_docx_extension "b") = true /\
  fst (copy_document Demo.lib "a" "b" Demo.target_only)
  = "Error: Source document 'a.docx' does not exist" /\
  fst (copy_document Demo.lib "a" "b" Demo.target_only)
  <> "Error: Target document 'b.docx' already exists".
Proof.
  split; [reflexivity|]. split; [reflexivity|].
  vm_compute. discriminate.
Qed.

(** ** Reading *)

Lemma truthy_rstrip (s : string) :
  Py.truthy (Py.rstrip s) = has_visible_character s.
Proof.
  unfold has_visible_character.
  induction s as [|c s IH]; [reflexivity|].
  cbn [Py.rstrip list_ascii_of_string existsb]. rewrite <- IH.
  destruct (Py.rstrip s); cbn [Py.truthy].
  - rewrite orb_false_r. destruct (Py.isspace c); reflexivity.
  - rewrite orb_true_r. reflexivity.
Qed.

Lemma has_visible_character_lstrip (s : string) :
  has_visible_character (Py.lstrip s) = has_visible_character s.
Proof.
  unfold has_visible_character.
  induction s as [|c s IH]; [reflexivity|].
  cbn [Py.lstrip]. destruct (Py.isspace c) eqn:E; [|reflexivity].
  cbn [list_ascii_of_string existsb]. rewrite E, IH. reflexivity.
Qed.

Lemma truthy_strip (s : string) :
  Py.truthy (Py.strip s) = has_visible_character s.
Proof.
  unfold Py.strip. rewrite truthy_rstrip. apply has_visible_character_lstrip.
Qed.

(** The loop of [read_document] keeps, in order, the texts with a
    character that is not white space. *)
Lemma read_paragraphs_filter (ps : list Paragraph) :
  read_paragraphs ps
  = map paragraph_text
      (filter (fun p => has_visible_character (paragraph_text p) = true) ps).
Proof.
  unfold read_paragraphs.
  enough (G : forall acc,
    fold_left
      (fun text_content paragraph =>
         if Py.truthy (Py.strip (paragraph_text paragraph))
         then (text_content ++ [paragraph_text paragraph])%list
         else text_content) ps acc
    = (acc ++ map paragraph_text
         (filter (fun p => has_visible_character (paragraph_text p) = true) ps))%list)
    by apply (G []).
  induction ps as [|p ps IH]; intros acc; cbn [fold_left].
  - cbn. rewrite app_nil_r. reflexivity.
  - rewrite IH, filter_cons, truthy_strip.
    destruct (has_visible_character (paragraph_text p)) eqn:E; case_decide;
      try congruence.
    cbn [map]. rewrite <- app_assoc. reflexivity.
Qed.





(** ** Writing *)

Lemma save_then_report {File : Type} (lib : Library File)
  (fs : gmap string File) (path : string) (doc : Document) :
  bind (Document_save lib doc path)
    (fun _ =>
       bind (os_path_exists lib path)
         (fun found_now =>
            ret ("Text "
                 ++ (if true && found_now then "appended to" else "written to")
                 ++ " '" ++ path ++ "' successfully"))) fs
  = match save_error lib fs path with
    | Some e => (Raise e, fs)
    | None =>
        (Ok ("Text appended to '" ++ path ++ "' successfully"),
         <[resolve lib path := render lib doc]> fs)
    end.
Proof.
  unfold bind, Document_save, os_path_exists, ret.
  destruct (save_error lib fs path) as [e|]; [reflexivity|].
  rewrite (check_file_exists_Some lib _ _ (render lib doc))
    by apply lookup_insert_eq.
  reflexivity.
Qed.

Lemma open_or_new {File : Type} (lib : Library File)
  (fs : gmap string File) (path : string) :
  (if check_file_exists lib fs path then Document_open lib path else Document_new lib) fs
  = (match fs !! resolve lib path with
     | Some f => parse lib f
     | None => Ok (blank lib)
     end, fs).
Proof.
  unfold Document_open, Document_new, ret.
  destruct (fs !! resolve lib path) as [f|] eqn:Hf.
  - rewrite (check_file_exists_Some lib fs path f Hf), Hf. reflexivity.
  - rewrite (check_file_exists_None lib fs path Hf). reflexivity.
Qed.

(** What [write_text] returns with [append=True], from what opening
    the document gives. *)
Lemma write_text_append_from {File : Type} (lib : Library File)
  (fs : gmap string File) (filename text : string) :
  let path := ensure_docx_extension filename in
  write_text lib filename text true fs
  = match (match fs !! resolve lib path with
           | Some f => parse lib f
           | None => Ok (blank lib)
           end) with
    | Raise e => ("Error writing to document: " ++ e, fs)
    | Ok doc =>
        match add_paragraph lib doc text with
        | Raise e => ("Error writing to document: " ++ e, fs)
        | Ok doc' =>
            match save_error lib fs path with
            | Some e => ("Error writing to document: " ++ e, fs)
            | None =>
                ("Text appended to '" ++ path ++ "' successfully",
                 <[resolve lib path := render lib doc']> fs)
            end
        end
    end.
Proof.
  intros path. unfold write_text. fold path.
  unfold attempt, write_text_body.
  unfold bind at 1. unfold os_path_exists at 1.
  unfold bind at 1. cbn [andb]. rewrite open_or_new.
  destruct (match fs !! resolve lib path with
            | Some f => parse lib f
            | None => Ok (blank lib)
            end) as [doc|e]; [|reflexivity].
  unfold bind at 1. unfold lift at 1.
  destruct (add_paragraph lib doc text) as [doc'|e]; [|reflexivity].
  rewrite save_then_report.
  destruct (save_error lib fs path); reflexivity.
Qed.

(** C8.  Whatever [write_text] returns with [append=True] is the
    "appended to" message or an error: the document was saved before the
    wording is chosen, so the file exists by then, also when it was
    absent at the call and the document is the new one of the library. *)
Theorem write_text_append_reports_appended {File : Type} (lib : Library File)
  (fs fs' : gmap string File) (filename text msg : string) :
  let path := ensure_docx_extension filename in
  write_text lib filename text true fs = (msg, fs') ->
  (msg = "Text appended to '" ++ path ++ "' successfully" /\
   check_file_exists lib fs' path = true /\
   exists doc doc',
     add_paragraph lib doc text = Ok doc' /\
     fs' = <[resolve lib path := render lib doc']> fs /\
     match fs !! resolve lib path with
     | None => doc = blank lib
     | Some f => parse lib f = Ok doc
     end)
  \/ (exists e, msg = "Error writing to document: " ++ e /\ fs' = fs).
Proof.
  intros path. rewrite write_text_append_from. fold path.
  destruct (match fs !! resolve lib path with
            | Some f => parse lib f
            | None => Ok (blank lib)
            end) as [doc|e] eqn:Hopen.
  - destruct (add_paragraph lib doc text) as [doc'|e] eqn:Hadd.
    + destruct (save_error lib fs path) as [e|].
      * intros E. injection E as <- <-. right. eauto.
      * intros E. injection E as <- <-. left.
        split; [reflexivity|]. split.
        -- apply (check_file_exists_Some lib _ _ (render lib doc')).
           apply lookup_insert_eq.
        -- exists doc, doc'. split; [exact Hadd|]. split; [reflexivity|].
           destruct (fs !! resolve lib path); [exact Hopen|].
           injection Hopen as <-. reflexivity.
    + intros E. injection E as <- <-. right. eauto.
  - intros E. injection E as <- <-. right. eauto.
Qed.

Lemma write_text_append_reports_appended_witness :
  ("Text appended to 'new.docx' successfully"
   = "Text appended to '" ++ ensure_docx_extension "new" ++ "' successfully" /\
   check_file_exists Demo.lib Demo.written (ensure_docx_extension "new") = true /\
   exists doc doc',
     add_paragraph Demo.lib doc "hi" = Ok doc' /\
     Demo.written
     = <[resolve Demo.lib (ensure_docx_extension "new") := render Demo.lib doc']> ∅ /\
     match (∅ : gmap string Demo.File)
             !! resolve Demo.lib (ensure_docx_extension "new") with
     | None => doc = blank Demo.lib
     | Some f => parse Demo.lib f = Ok doc
     end)
  \/ (exists e,
        "Text appended to 'new.docx' successfully" = "Error writing to document: " ++ e /\
        Demo.written = ∅).
Proof.
  apply (write_text_append_reports_appended Demo.lib ∅ Demo.written "new" "hi"
           "Text appended to 'new.docx' successfully").
  vm_compute. reflexivity.
Defined.

(** ** Export *)

(** C9.  When the target path of [export_to_pdf] is the path the
    converter writes to, a file already at that path does not stop the
    call: after a conversion that exits with zero the tool reports
    success, and the file at the target is what the converter produced. *)
Theorem export_to_pdf_overwrites_converted_target {File : Type}
  (lib : Library File) (fs : gmap string File)
  (source_filename : string) (target_filename : option string)
  (f old pdf : File) (result : Completed) :
  let source_path := ensure_docx_extension source_filename in
  let target_path := export_target_path source_path target_filename in
  let output_dir := Py.or_else (PosixPath.dirname target_path) "." in
  fs !! resolve lib source_path = Some f ->
  soffice lib (Some f) = Ok (result, Some pdf) ->
  returncode result = 0%Z ->
  export_converted_path source_path output_dir = target_path ->
  fs !! resolve lib target_path = Some old ->
  export_to_pdf lib source_filename target_filename fs
  = ("Document converted to PDF: '" ++ target_path ++ "'",
     <[resolve lib target_path := pdf]> fs).
Proof.
  intros source_path target_path output_dir Hf Hrun Hcode Hsame _.
  unfold export_to_pdf. fold source_path target_path output_dir.
  rewrite (check_file_exists_Some lib fs source_path f Hf). cbn [negb].
  unfold attempt, export_to_pdf_body, bind, subprocess_run_soffice.
  rewrite Hf, Hrun, Hcode, Hsame. cbn [Z.eqb negb].
  rewrite String.eqb_refl. reflexivity.
Qed.

Lemma export_to_pdf_overwrites_converted_target_witness :
  Demo.with_old_pdf !! "d/a.pdf" = Some Demo.Junk /\
  export_to_pdf Demo.lib "d/a" None Demo.with_old_pdf
  = ("Document converted to PDF: 'd/a.pdf'",
     <["d/a.pdf" := Demo.Pdf Demo.empty_document]> Demo.with_old_pdf).
Proof.
  split; [reflexivity|].
  exact (export_to_pdf_overwrites_converted_target Demo.lib Demo.with_old_pdf
           "d/a" None
           (Demo.Docx Demo.empty_document) Demo.Junk (Demo.Pdf Demo.empty_document)
           {| returncode := 0; stdout := ""; stderr := "" |}
           eq_refl eq_refl eq_refl eq_refl eq_refl).
Defined.


(** ** The empty search string *)

Lemma interleave_at_every_boundary (new s : string) :
  Py.interleave new s = at_every_boundary new s.
Proof.
  unfold at_every_boundary.
  induction s as [|c s IH]; [reflexivity|].
  cbn [Py.interleave list_ascii_of_string fold_right]. rewrite IH. reflexivity.
Qed.

Lemma replace_empty (s new : string) : Py.replace s "" new = at_every_boundary new s.
Proof. unfold Py.replace. apply interleave_at_every_boundary. Qed.

Lemma map_ext_elem {A B} (g h : A -> B) (l : list A) :
  (forall x, x ∈ l -> g x = h x) -> map g l = map h l.
Proof.
  intros E. induction l as [|x l IH]; [reflexivity|].
  cbn [map]. rewrite E by left.
  rewrite IH by (intros y Hy; apply E; right; exact Hy). reflexivity.
Qed.

Lemma sum_list_with_in {A} (x : A) (h : A -> nat) (l : list A) :
  x ∈ l -> h x <= sum_list_with h l.
Proof.
  induction l as [|y l IH]; intros H; [inversion H|].
  cbn [sum_list_with]. apply elem_of_cons in H as [->|H]; [lia|].
  specialize (IH H). lia.
Qed.

(** Two rewritings that agree on the texts of the visited runs make
    the same document. *)
Lemma map_paragraph_runs_ext (g h : string -> string) (p : Paragraph) :
  (forall r, r ∈ runs p -> g (text r) = h (text r)) ->
  map_paragraph_runs g p = map_paragraph_runs h p.
Proof.
  intros E. unfold map_paragraph_runs. f_equal.
  apply map_ext_elem. intros r Hr. rewrite (E r Hr). reflexivity.
Qed.

Lemma map_cell_runs_ext (g h : string -> string) (c : Cell) :
  (forall p r, p ∈ cell_paragraphs c -> r ∈ runs p -> g (text r) = h (text r)) ->
  map_cell_runs g c = map_cell_runs h c.
Proof.
  intros E. unfold map_cell_runs. f_equal.
  apply map_ext_elem. intros p Hp. apply map_paragraph_runs_ext.
  intros r Hr. exact (E p r Hp Hr).
Qed.

Lemma map_table_runs_ext (g h : string -> string) (t : Table) :
  (forall p r, p ∈ table_paragraphs t -> r ∈ runs p -> g (text r) = h (text r)) ->
  map_table_runs g t = map_table_runs h t.
Proof.
  intros E. unfold map_table_runs. f_equal.
  apply imap_ext. intros i c Hc.
  destruct (decide (i ∈ positions t)) as [Hi|Hi]; [|reflexivity].
  apply map_cell_runs_ext. intros p r Hp Hr.
  exact (E p r (elem_of_table_paragraphs t i c p Hi Hc Hp) Hr).
Qed.

Lemma map_document_runs_ext (g h : string -> string) (doc : Document) :
  (forall p r, p ∈ visited_paragraphs doc -> r ∈ runs p -> g (text r) = h (text r)) ->
  map_document_runs g doc = map_document_runs h doc.
Proof.
  intros E. unfold map_document_runs. f_equal.
  apply map_ext_elem. intros [p|t] Hb; cbn [map_block_runs]; f_equal.
  - apply map_paragraph_runs_ext. intros r Hr.
    exact (E p r (elem_of_visited_body doc p Hb) Hr).
  - apply map_table_runs_ext. intros p r Hp Hr.
    exact (E p r (elem_of_visited_table doc t p Hb Hp) Hr).
Qed.

(** C10 (amended).  With the empty string as [find], on a document that
    could be opened, has a run in a visited paragraph, has no cell
    listed at two grid positions, and can be saved, and where the
    library stores as given every text with [repl] put in:
    [replace_text] rewrites the text of every run of every visited
    paragraph to that text with [repl] at every character boundary (an
    empty text becomes [repl]), reports a positive count and saves the
    rewritten document. *)
Theorem replace_text_empty_find {File : Type} (lib : Library File)
  (fs : gmap string File) (filename repl : string) (f : File) (doc : Document) :
  let path := ensure_docx_extension filename in
  let doc' := map_document_runs (at_every_boundary repl) doc in
  fs !! resolve lib path = Some f ->
  parse lib f = Ok doc ->
  (exists p r, p ∈ visited_paragraphs doc /\ r ∈ runs p) ->
  plain_tables doc ->
  (forall p r, p ∈ visited_paragraphs doc -> r ∈ runs p ->
     stores_as_given lib (at_every_boundary repl (text r))) ->
  save_error lib fs path = None ->
  at_every_boundary repl "" = repl /\
  exists n,
    0 < n /\
    replace_in_document lib "" repl doc = Ok (doc', n) /\
    replace_text lib filename "" repl fs
    = ("Replaced " ++ Py.str_of_nat n ++ " occurrence(s) of '' with '" ++ repl ++ "'",
       <[resolve lib path := render lib doc']> fs).
Proof.
  intros path doc' Hf Hdoc (p & r & Hp & Hr) Hplain Hgiven Hsave.
  split; [reflexivity|].
  exists (sum_list_with (paragraph_gain lib "" repl) (visited_paragraphs doc)).
  assert (Hpos : 0 < sum_list_with (paragraph_gain lib "" repl) (visited_paragraphs doc)).
  { pose proof (sum_list_with_in p (paragraph_gain lib "" repl) _ Hp) as Hle.
    assert (Hrun : 0 < run_gain lib "" repl r).
    { unfold run_gain. rewrite contains_empty, replace_empty.
      rewrite (proj2 (Hgiven p r Hp Hr)), <- interleave_at_every_boundary.
      destruct (interleave_starts repl (text r)) as [rest ->].
      apply count_positive. }
    assert (Hpar : run_gain lib "" repl r <= paragraph_gain lib "" repl p).
    { unfold paragraph_gain. rewrite contains_empty.
      apply sum_list_with_in, Hr. }
    lia. }
  assert (E : replace_in_document lib "" repl doc
              = Ok (doc', sum_list_with (paragraph_gain lib "" repl)
                            (visited_paragraphs doc))).
  { rewrite replace_in_document_ok.
    - unfold doc'. do 2 f_equal.
      apply map_document_runs_ext. intros q s Hq Hs.
      unfold rewritten. rewrite contains_empty, replace_empty.
      exact (proj2 (Hgiven q s Hq Hs)).
    - exact Hplain.
    - intros q s Hq Hs _. rewrite replace_empty. exact (proj1 (Hgiven q s Hq Hs)). }
  split; [exact Hpos|]. split; [exact E|].
  rewrite (replace_text_opened lib fs filename "" repl f doc Hf Hdoc), E.
  fold path. apply Nat.ltb_lt in Hpos. rewrite Hpos, Hsave. reflexivity.
Qed.

Lemma replace_text_empty_find_witness :
  replace_text Demo.lib "a" "" "-" (Demo.holding Demo.letters)
  = ("Replaced 6 occurrence(s) of '' with '-'", Demo.holding Demo.dashed_letters).
Proof.
  assert (Hrun : exists p r, p ∈ visited_paragraphs Demo.letters /\ r ∈ runs p).
  { exists (Demo.para [Demo.plain "ab"; Demo.plain ""]), (Demo.plain "ab").
    split; left. }
  assert (Hplain : plain_tables Demo.letters) by by_evaluation.
  assert (Hgiven :
            Forall (fun p =>
                      Forall (fun r => stores_as_given Demo.lib
                                         (at_every_boundary "-" (text r)))
                        (runs p))
              (visited_paragraphs Demo.letters)) by by_evaluation.
  destruct (replace_text_empty_find Demo.lib (Demo.holding Demo.letters) "a" "-"
              (Demo.Docx Demo.letters) Demo.letters eq_refl eq_refl Hrun Hplain
              (on_visited_runs _ _ Hgiven) eq_refl)
    as [_ [n [_ [Hn Hmsg]]]].
  rewrite Hmsg.
  assert (En : n = 6) by (vm_compute in Hn; congruence).
  subst n. vm_compute. reflexivity.
Defined.

(** The statement without the two conditions fails.  With a carriage
    return as [repl] every run is rewritten, but the carriage returns
    read back as line feeds: the tool counts none, answers that nothing
    occurred and does not save, on a document that has runs.  And the
    run of a merged cell is rewritten once for each grid position of
    the cell: it does not end as its text with [repl] at every
    boundary. *)
Lemma replace_text_empty_find_unsaved :
  (exists p r, p ∈ visited_paragraphs Demo.letters /\ r ∈ runs p) /\
  replace_text Demo.lib "a" "" Demo.carriage_return (Demo.holding Demo.letters)
  = ("No occurrences of '' found", Demo.holding Demo.letters) /\
  at_every_boundary "-" "t" = "-t-" /\
  replace_text Demo.lib "a" "" "-" (Demo.holding Demo.merged)
  = ("Replaced 8 occurrence(s) of '' with '-'",
     Demo.holding (Demo.document [Demo.merged_cell [Demo.para [Demo.plain "---t---"]]])).
Proof.
  split.
  { exists (Demo.para [Demo.plain "ab"; Demo.plain ""]), (Demo.plain "ab").
    split; left. }
  split; [vm_compute; reflexivity|]. split; [reflexivity|].
  vm_compute. reflexivity.
Qed.

(** ** The target path of the export *)

Lemma lower_app (s t : string) : Py.lower (s ++ t) = Py.lower s ++ Py.lower t.
Proof.
  induction s as [|c s IH]; [reflexivity|].
  rewrite append_cons. cbn [Py.lower]. rewrite IH, append_cons. reflexivity.
Qed.

(** A target that is given ends, in lower case, with [.pdf]: it is kept
    when it already does, whatever the case of its letters, and gets
    [.pdf] appended otherwise. *)
Lemma export_target_path_given (source_path target : string) :
  Py.endswith (Py.lower (export_target_path source_path (Some target))) ".pdf" = true /\
  export_target_path source_path (Some target)
  = if Py.endswith (Py.lower target) ".pdf" then target else target ++ ".pdf".
Proof.
  unfold export_target_path.
  destruct (Py.endswith (Py.lower target) ".pdf") eqn:E; cbn [negb].
  - split; [exact E|reflexivity].
  - split; [|reflexivity]. rewrite lower_app. apply endswith_app.
Qed.

(** Nothing that starts in front of a trailing [.docx] and runs into it
    is an occurrence of [.docx]. *)
Lemma startswith_docx_before_suffix (c : ascii) (s : string) :
  Py.startswith ".docx" (String c s) = false ->
  Py.startswith ".docx" (String c s ++ ".docx") = false.
Proof.
  destruct s as [|c1 [|c2 [|c3 [|c4 s]]]];
    rewrite ?append_cons, ?append_empty_l; cbn [Py.startswith];
    intros H;
    repeat match goal with
      | |- context [Ascii.eqb ?a ?b] =>
          lazymatch b with
          | "."%char => change (Ascii.eqb a b) with false
          end
      end;
    rewrite ?andb_false_r, ?andb_false_l; try reflexivity.
  rewrite andb_true_r in *. exact H.
Qed.

(** Where [.docx] occurs in the source path only as its extension, the
    default target is the path with the extension swapped. *)
Lemma export_target_path_default (stem : string) :
  Py.contains ".docx" stem = false ->
  export_target_path (stem ++ ".docx") None = stem ++ ".pdf".
Proof.
  unfold export_target_path.
  induction stem as [|c s IH]; intros H; [reflexivity|].
  cbn [Py.contains] in H. apply orb_false_iff in H as [H1 H2].
  rewrite append_cons.
  rewrite replace_step; [|discriminate|].
  - rewrite (IH H2). reflexivity.
  - rewrite <- append_cons. apply startswith_docx_before_suffix, H1.
Qed.

(** C6.  On the source [a.docx.d/b], [export_to_pdf] without a target
    does not swap the trailing extension alone: the default target has
    [.pdf] in place of every [.docx] of the path, and that is where the
    tool reports the PDF. *)
Theorem export_default_target_replaces_every_docx :
  ensure_docx_extension "a.docx.d/b" = "a.docx.d/b.docx" /\
  export_target_path (ensure_docx_extension "a.docx.d/b") None = "a.pdf.d/b.pdf" /\
  export_target_path (ensure_docx_extension "a.docx.d/b") None <> "a.docx.d/b.pdf" /\
  fst (export_to_pdf Demo.lib "a.docx.d/b" None Demo.in_docx_directory)
  = "Document converted to PDF: 'a.pdf.d/b.pdf'".
Proof.
  split; [reflexivity|]. split; [reflexivity|]. split.
  - vm_compute. discriminate.
  - vm_compute. reflexivity.
Qed.

(** * Further properties of the tools *)

(** ** [ensure_docx_extension] *)

(** X1.  [ensure_docx_extension] always returns a name that ends with
    [.docx]; it is idempotent; and it returns its argument unchanged
    exactly when the argument already ends with [.docx], appending
    [.docx] otherwise. *)
Theorem ensure_docx_extension_normal_form (filename : string) :
  Py.endswith (ensure_docx_extension filename) ".docx" = true /\
  ensure_docx_extension (ensure_docx_extension filename)
  = ensure_docx_extension filename /\
  (ensure_docx_extension filename = filename <-> Py.endswith filename ".docx" = true) /\
  (Py.endswith filename ".docx" = false ->
   ensure_docx_extension filename = filename ++ ".docx").
Proof.
  split; [apply ensure_docx_extension_endswith|].
  split; [apply ensure_docx_extension_idempotent|].
  split; [split|].
  - intros E. rewrite <- E. apply ensure_docx_extension_endswith.
  - intros E. unfold ensure_docx_extension. rewrite E. reflexivity.
  - intros E. unfold ensure_docx_extension. rewrite E. reflexivity.
Qed.

(** ** What [replace_text] does to a document *)

(** X2.  On a document it could open and can save, in which no cell of
    a table is listed at two grid positions, and where the library takes
    every text the visits assign: the traversal of [replace_text] gives
    every run of every body paragraph and of every paragraph of every
    listed table cell the text that [run.text] reads once
    [run.text.replace(find, repl)] is assigned to it where the run holds
    [find], and leaves the other runs as they are, whether or not the
    paragraph passes the test of the loop; its counter is the sum of
    what the visits add; that document is what the tool saves when the
    counter is positive, and it saves nothing otherwise. *)
Theorem replace_text_rewrites_every_run {File : Type} (lib : Library File)
  (fs : gmap string File) (filename find repl : string) (f : File) (doc : Document) :
  let path := ensure_docx_extension filename in
  let doc' := map_document_runs (rewritten lib find repl) doc in
  let n := sum_list_with (paragraph_gain lib find repl) (visited_paragraphs doc) in
  fs !! resolve lib path = Some f ->
  parse lib f = Ok doc ->
  save_error lib fs path = None ->
  plain_tables doc ->
  (forall p r, p ∈ visited_paragraphs doc -> r ∈ runs p -> accepted lib find repl r) ->
  replace_in_document lib find repl doc = Ok (doc', n) /\
  snd (replace_text lib filename find repl fs)
  = if (0 <? n)%nat then <[resolve lib path := render lib doc']> fs else fs.
Proof.
  intros path doc' n Hf Hdoc Hsave Hplain Hacc.
  pose proof (replace_in_document_ok lib find repl doc Hplain Hacc) as E.
  fold doc' n in E. split; [exact E|].
  rewrite (replace_text_opened lib fs filename find repl f doc Hf Hdoc), E.
  fold path. destruct (0 <? n)%nat; [rewrite Hsave|]; reflexivity.
Qed.

Lemma replace_text_rewrites_every_run_witness :
  replace_in_document Demo.lib "x" Demo.carriage_return Demo.report
  = Ok (Demo.document
          [BlockParagraph (Demo.para [Demo.plain "test"; Demo.plain (nl ++ "t" ++ nl)]);
           Demo.one_cell [Demo.para [Demo.plain "t"]];
           BlockParagraph (Demo.para [Demo.plain "no"])], 0) /\
  snd (replace_text Demo.lib "a" "x" Demo.carriage_return (Demo.holding Demo.report))
  = Demo.holding Demo.report.
Proof.
  assert (Hplain : plain_tables Demo.report) by by_evaluation.
  assert (Hacc :
            Forall (fun p => Forall (accepted Demo.lib "x" Demo.carriage_return) (runs p))
              (visited_paragraphs Demo.report)) by by_evaluation.
  destruct (replace_text_rewrites_every_run Demo.lib (Demo.holding Demo.report)
              "a" "x" Demo.carriage_return (Demo.Docx Demo.report) Demo.report
              eq_refl eq_refl eq_refl Hplain (on_visited_runs _ _ Hacc)) as [H1 H2].
  split.
  - rewrite H1. vm_compute. reflexivity.
  - rewrite H2. vm_compute. reflexivity.
Defined.

Lemma length_paragraphs_without_text (doc : Document) :
  length (paragraphs (without_text doc)) = length (paragraphs doc).
Proof.
  unfold paragraphs, without_text. cbn [body set_body].
  induction (body doc) as [|[p|t] b IH];
    cbn [map without_text_block block_paragraphs length];
    [reflexivity|rewrite IH; reflexivity|exact IH].
Qed.

Lemma length_tables_without_text (doc : Document) :
  length (tables (without_text doc)) = length (tables doc).
Proof.
  unfold tables, without_text. cbn [body set_body].
  induction (body doc) as [|[p|t] b IH];
    cbn [map without_text_block block_tables length];
    [reflexivity|exact IH|rewrite IH; reflexivity].
Qed.

(** X3.  [replace_text] changes texts only: whatever document its
    traversal yields has the properties, the blocks, the rows and cells,
    the paragraphs with their styles and the runs with their formatting
    of the document it was given, also where a cell is listed at
    several grid positions. *)
Theorem replace_in_document_keeps_formatting {File : Type} (lib : Library File)
  (find repl : string) (doc doc' : Document) (n : nat) :
  replace_in_document lib find repl doc = Ok (doc', n) ->
  without_text doc' = without_text doc /\
  core_properties doc' = core_properties doc /\
  length (paragraphs doc') = length (paragraphs doc) /\
  length (tables doc') = length (tables doc).
Proof.
  intros H.
  pose proof (replace_in_document_keeps lib find repl doc doc' n H) as E.
  split; [exact E|]. split; [exact (f_equal core_properties E)|].
  rewrite <- (length_paragraphs_without_text doc'), <- (length_tables_without_text doc').
  rewrite E, length_paragraphs_without_text, length_tables_without_text.
  split; reflexivity.
Qed.

Lemma replace_in_document_keeps_formatting_witness :
  without_text (Demo.document [Demo.merged_cell [Demo.para [Demo.plain "tttt"]]])
  = without_text Demo.merged.
Proof.
  assert (H : replace_in_document Demo.lib "t" "tt" Demo.merged
              = Ok (Demo.document [Demo.merged_cell [Demo.para [Demo.plain "tttt"]]], 3))
    by (vm_compute; reflexivity).
  exact (proj1 (replace_in_document_keeps_formatting Demo.lib "t" "tt" Demo.merged
                  _ 3 H)).
Defined.

(** ** When [replace_text] finds nothing, and when it finds something *)

(** X4.  When [find] occurs in the text of no visited paragraph,
    [replace_text] answers "No occurrences" and leaves the file system as
    it was. *)
Theorem replace_text_nothing_found {File : Type} (lib : Library File)
  (fs : gmap string File) (filename find repl : string) (f : File) (doc : Document) :
  fs !! resolve lib (ensure_docx_extension filename) = Some f ->
  parse lib f = Ok doc ->
  (forall p, p ∈ visited_paragraphs doc ->
             Py.contains find (paragraph_text p) = false) ->
  replace_text lib filename find repl fs
  = ("No occurrences of '" ++ find ++ "' found", fs).
Proof.
  intros Hf Hdoc Hnone.
  rewrite (replace_text_opened lib fs filename find repl f doc Hf Hdoc).
  rewrite replace_in_document_same.
  - rewrite (sum_list_with_ext_in _ (fun _ => 0)).
    + rewrite sum_list_with_zero. reflexivity.
    + intros p Hp. unfold paragraph_gain. rewrite (Hnone p Hp). reflexivity.
  - intros p r Hp Hr E. specialize (Hnone p Hp).
    rewrite (contains_paragraph_text find p r Hr E) in Hnone. discriminate.
Qed.

Lemma replace_text_nothing_found_witness :
  replace_text Demo.lib "a" "zebra" "horse" (Demo.holding Demo.split_word)
  = ("No occurrences of 'zebra' found", Demo.holding Demo.split_word).
Proof.
  apply (replace_text_nothing_found Demo.lib (Demo.holding Demo.split_word)
           "a" "zebra" "horse" (Demo.Docx Demo.split_word) Demo.split_word
           eq_refl eq_refl).
  intros p Hp. apply list_elem_of_singleton in Hp. subst p. reflexivity.
Defined.

(** A string that holds [sub] holds at least one counted occurrence. *)
Lemma count_contains (s sub : string) :
  Py.contains sub s = true -> 0 < Py.count s sub.
Proof.
  destruct (String.eqb_spec sub "") as [->|Hne]; [intros _; cbn; lia|].
  induction s as [|c s IH]; cbn [Py.contains]; intros H;
    apply orb_true_iff in H as [H|H]; try discriminate.
  - destruct sub; [congruence|discriminate].
  - apply startswith_spec in H as [t E]. rewrite E. apply count_positive.
  - destruct (Py.startswith sub (String c s)) eqn:E.
    + apply startswith_spec in E as [t E]. rewrite E. apply count_positive.
    + rewrite count_step by assumption. exact (IH H).
Qed.

(** After the substitution the text holds the replacement wherever it
    held [find]. *)
Lemma contains_replace (s find repl : string) :
  Py.contains find s = true -> Py.contains repl (Py.replace s find repl) = true.
Proof.
  destruct (String.eqb_spec find "") as [->|Hne].
  - intros _. unfold Py.replace.
    destruct (interleave_starts repl s) as [rest ->].
    apply contains_spec. exists "", rest. reflexivity.
  - induction s as [|c s IH]; cbn [Py.contains]; intros H.
    + destruct find; [congruence|discriminate].
    + destruct (Py.startswith find (String c s)) eqn:E.
      * apply startswith_spec in E as [t E]. rewrite E.
        rewrite replace_match by exact Hne.
        apply contains_spec. exists "", (Py.replace t find repl). reflexivity.
      * cbn [orb] in H. rewrite replace_step by assumption.
        cbn [Py.contains]. rewrite (IH H). apply orb_true_r.
Qed.

(** X5.  When [find] occurs in the text of one run of a visited
    paragraph, on a document without a cell listed at two grid
    positions, where the library takes every text the visits assign and
    stores the new text of that run as given: [replace_text] reports a
    positive count and saves the rewritten document. *)
Theorem replace_text_found_in_run {File : Type} (lib : Library File)
  (fs : gmap string File) (filename find repl : string) (f : File) (doc : Document)
  (p : Paragraph) (r : Run) :
  let path := ensure_docx_extension filename in
  fs !! resolve lib path = Some f ->
  parse lib f = Ok doc ->
  save_error lib fs path = None ->
  p ∈ visited_paragraphs doc -> r ∈ runs p ->
  Py.contains find (text r) = true ->
  plain_tables doc ->
  (forall q s, q ∈ visited_paragraphs doc -> s ∈ runs q -> accepted lib find repl s) ->
  stores_as_given lib (Py.replace (text r) find repl) ->
  exists n,
    0 < n /\
    replace_text lib filename find repl fs
    = ("Replaced " ++ Py.str_of_nat n ++ " occurrence(s) of '" ++ find
       ++ "' with '" ++ repl ++ "'",
       <[resolve lib path :=
           render lib (map_document_runs (rewritten lib find repl) doc)]> fs).
Proof.
  intros path Hf Hdoc Hsave Hp Hr Hfound Hplain Hacc Hgiven.
  exists (sum_list_with (paragraph_gain lib find repl) (visited_paragraphs doc)).
  assert (Hpos : 0 < sum_list_with (paragraph_gain lib find repl)
                       (visited_paragraphs doc)).
  { pose proof (sum_list_with_in p (paragraph_gain lib find repl) _ Hp) as Hle.
    assert (Hrun : 0 < run_gain lib find repl r).
    { unfold run_gain. rewrite Hfound, (proj2 Hgiven).
      apply count_contains, contains_replace, Hfound. }
    assert (Hpar : run_gain lib find repl r <= paragraph_gain lib find repl p).
    { unfold paragraph_gain. rewrite (contains_paragraph_text find p r Hr Hfound).
      apply sum_list_with_in, Hr. }
    lia. }
  split; [exact Hpos|].
  rewrite (replace_text_opened lib fs filename find repl f doc Hf Hdoc).
  rewrite (replace_in_document_ok lib find repl doc Hplain Hacc).
  fold path. apply Nat.ltb_lt in Hpos. rewrite Hpos, Hsave. reflexivity.
Qed.

Lemma replace_text_found_in_run_witness :
  exists n,
    0 < n /\
    replace_text Demo.lib "a" "wor" "" (Demo.holding Demo.split_word)
    = ("Replaced " ++ Py.str_of_nat n ++ " occurrence(s) of 'wor' with ''",
       <[resolve Demo.lib (ensure_docx_extension "a") :=
           render Demo.lib
             (map_document_runs (rewritten Demo.lib "wor" "") Demo.split_word)]>
         (Demo.holding Demo.split_word)).
Proof.
  assert (Hplain : plain_tables Demo.split_word) by by_evaluation.
  assert (Hacc :
            Forall (fun p => Forall (accepted Demo.lib "wor" "") (runs p))
              (visited_paragraphs Demo.split_word)) by by_evaluation.
  assert (Hgiven : stores_as_given Demo.lib (Py.replace "wor" "wor" ""))
    by (split; reflexivity).
  apply (replace_text_found_in_run Demo.lib (Demo.holding Demo.split_word)
           "a" "wor" "" (Demo.Docx Demo.split_word) Demo.split_word
           {| style := "Normal";
              runs := [{| text := "wor"; font := "" |}; {| text := "ld"; font := "bold" |}] |}
           {| text := "wor"; font := "" |}
           eq_refl eq_refl eq_refl).
  - left.
  - left.
  - reflexivity.
  - exact Hplain.
  - exact (on_visited_runs _ _ Hacc).
  - exact Hgiven.
Defined.

(** ** Tools that only read *)

Lemma list_entries_reads_only {File : Type} (lib : Library File)
  (directory : string) (names : list string) (result : string)
  (fs : gmap string File) :
  snd (list_entries lib directory names result fs) = fs.
Proof.
  revert result. induction names as [|file rest IH]; intros result;
    cbn [list_entries]; [reflexivity|].
  unfold bind, os_path_getsize.
  destruct (fs !! resolve lib (PosixPath.join directory file)); [apply IH|reflexivity].
Qed.

(** X6.  [read_document], [get_document_info] and [list_documents] leave
    the file system as it was, whatever they are given and whatever they
    return: a missing or unreadable file, a failing listing, a success. *)
Theorem read_tools_write_nothing {File : Type} (lib : Library File)
  (fs : gmap string File) (name : string) :
  snd (read_document lib name fs) = fs /\
  snd (get_document_info lib name fs) = fs /\
  snd (list_documents lib name fs) = fs.
Proof.
  split; [|split].
  - unfold read_document.
    destruct (check_file_exists lib fs (ensure_docx_extension name)); [|reflexivity].
    cbn [negb]. unfold attempt, bind, Document_open, ret.
    destruct (fs !! resolve lib (ensure_docx_extension name)) as [f|]; [|reflexivity].
    destruct (parse lib f); reflexivity.
  - unfold get_document_info.
    destruct (check_file_exists lib fs (ensure_docx_extension name)); [|reflexivity].
    cbn [negb]. unfold attempt, bind, Document_open, os_path_getsize, ret.
    destruct (fs !! resolve lib (ensure_docx_extension name)) as [f|] eqn:Hf;
      [|reflexivity].
    destruct (parse lib f); [rewrite Hf|]; reflexivity.
  - unfold list_documents, attempt, bind, os_path_exists, os_listdir, ret.
    destruct (check_file_exists lib fs name); [|reflexivity]. cbn [negb].
    destruct (listdir lib fs name) as [names|e]; [|reflexivity].
    destruct (filter (fun f => Py.endswith f ".docx" = true) names) as [|x l] eqn:E;
      [reflexivity|].
    pose proof (list_entries_reads_only lib name (sorted (x :: l))
                  ("Found " ++ Py.str_of_nat (length (x :: l))
                   ++ " Word documents in '" ++ name ++ "':" ++ nl) fs) as H.
    destruct (list_entries lib name (sorted (x :: l)) _ fs) as [[s|e] fs'];
      cbn [snd] in *; exact H.
Qed.

(** ** Reading back what a tool wrote *)

Section ReadBack.

Context {File : Type} (lib : Library File).
Implicit Types (fs : gmap string File) (doc d : Document).

Lemma read_document_opened fs filename f doc :
  fs !! resolve lib (ensure_docx_extension filename) = Some f ->
  parse lib f = Ok doc ->
  read_document lib filename fs = (Py.join nl (visible_lines doc), fs).
Proof.
  intros Hf Hdoc. unfold read_document.
  rewrite (check_file_exists_Some lib fs _ f Hf). cbn [negb].
  unfold attempt, bind, Document_open, ret. rewrite Hf, Hdoc.
  rewrite read_paragraphs_filter. reflexivity.
Qed.

(** Reading the file a document was just saved to. *)
Lemma read_document_saved fs filename d :
  round_trips lib ->
  read_document lib filename
    (<[resolve lib (ensure_docx_extension filename) := render lib d]> fs)
  = (Py.join nl (visible_lines d),
     <[resolve lib (ensure_docx_extension filename) := render lib d]> fs).
Proof.
  intros Hrt. apply (read_document_opened _ _ (render lib d)).
  - apply lookup_insert_eq.
  - apply Hrt.
Qed.

End ReadBack.

Lemma block_paragraphs_app (a b : list Block) :
  block_paragraphs (a ++ b) = (block_paragraphs a ++ block_paragraphs b)%list.
Proof.
  induction a as [|[p|t] a IH]; cbn [app block_paragraphs]; [reflexivity| |exact IH].
  rewrite IH. reflexivity.
Qed.

Section WriteBack.

Context {File : Type} (lib : Library File).
Implicit Types (fs : gmap string File) (d : Document).

(** The paragraph the library adds, where it takes the text and knows
    the style. *)
Lemma add_styled_paragraph_plain d t :
  text_fault lib t = None ->
  add_paragraph lib d t = Ok (with_paragraph lib d t "Normal").
Proof.
  intros Ht. unfold add_paragraph, add_styled_paragraph, with_paragraph, assign_text.
  rewrite Ht. destruct (Py.truthy t); reflexivity.
Qed.

Lemma add_styled_paragraph_styled d t sty :
  text_fault lib t = None ->
  style_fault lib d sty = None ->
  add_styled_paragraph lib d t (Some sty) = Ok (with_paragraph lib d t sty).
Proof.
  intros Ht Hs. unfold add_styled_paragraph, with_paragraph, assign_text.
  rewrite Ht. destruct (Py.truthy t); rewrite Hs; reflexivity.
Qed.

(** A paragraph added with text [t] adds the line that [t] reads back
    as, when that has a character other than white space, and no line
    otherwise. *)
Lemma visible_lines_with_paragraph d (t sty : string) :
  visible_lines (with_paragraph lib d t sty)
  = (visible_lines d ++ line_of (paragraph_text_of lib t))%list.
Proof.
  unfold visible_lines, paragraphs, with_paragraph, set_body. cbn [body].
  rewrite block_paragraphs_app. cbn [block_paragraphs].
  rewrite filter_app, map_app. f_equal.
  rewrite filter_cons, filter_nil. unfold line_of.
  assert (E : paragraph_text
                {| style := sty;
                   runs := if Py.truthy t
                           then [{| text := stored_text lib t; font := "" |}]
                           else [] |}
              = paragraph_text_of lib t).
  { unfold paragraph_text, paragraph_text_of. cbn [runs].
    destruct (Py.truthy t); cbn [map fold_right text].
    - apply append_empty_r.
    - reflexivity. }
  rewrite E.
  destruct (has_visible_character (paragraph_text_of lib t)); case_decide;
    try congruence; cbn [map]; rewrite ?E; reflexivity.
Qed.

Lemma save_then_report_any fs path d (append : bool) :
  bind (Document_save lib d path)
    (fun _ =>
       bind (os_path_exists lib path)
         (fun found_now =>
            ret ("Text "
                 ++ (if append && found_now then "appended to" else "written to")
                 ++ " '" ++ path ++ "' successfully"))) fs
  = match save_error lib fs path with
    | Some e => (Raise e, fs)
    | None =>
        (Ok ("Text " ++ (if append then "appended to" else "written to")
             ++ " '" ++ path ++ "' successfully"),
         <[resolve lib path := render lib d]> fs)
    end.
Proof.
  unfold bind, Document_save, os_path_exists, ret.
  destruct (save_error lib fs path) as [e|]; [reflexivity|].
  rewrite (check_file_exists_Some lib _ _ (render lib d))
    by apply lookup_insert_eq.
  rewrite andb_true_r. reflexivity.
Qed.

(** The document a tool starts from, as the tool finds it. *)
Lemma open_or_new_base fs path (loads : bool) d :
  base_document lib fs path loads d ->
  (if loads && check_file_exists lib fs path
   then Document_open lib path else Document_new lib) fs = (Ok d, fs).
Proof.
  unfold base_document, Document_open, Document_new, ret.
  destruct (fs !! resolve lib path) as [f|] eqn:Hf.
  - rewrite (check_file_exists_Some lib fs path f Hf), andb_true_r.
    destruct loads; intros H; [rewrite Hf, H|rewrite H]; reflexivity.
  - rewrite (check_file_exists_None lib fs path Hf), andb_false_r.
    intros ->. reflexivity.
Qed.

Lemma write_text_saved fs filename text (append : bool) d :
  base_document lib fs (ensure_docx_extension filename) append d ->
  save_error lib fs (ensure_docx_extension filename) = None ->
  text_fault lib text = None ->
  write_text lib filename text append fs
  = ("Text " ++ (if append then "appended to" else "written to")
     ++ " '" ++ ensure_docx_extension filename ++ "' successfully",
     <[resolve lib (ensure_docx_extension filename) :=
         render lib (with_paragraph lib d text "Normal")]> fs).
Proof.
  intros Hbase Hsave Htext. unfold write_text, attempt, write_text_body.
  unfold bind at 1. unfold os_path_exists at 1.
  unfold bind at 1. rewrite (open_or_new_base _ _ _ _ Hbase).
  unfold bind at 1. unfold lift at 1.
  rewrite (add_styled_paragraph_plain d text Htext).
  rewrite save_then_report_any, Hsave. reflexivity.
Qed.

Lemma add_heading_saved fs filename text (level : Z) d :
  (1 <= level <= 6)%Z ->
  base_document lib fs (ensure_docx_extension filename) true d ->
  save_error lib fs (ensure_docx_extension filename) = None ->
  text_fault lib text = None ->
  style_fault lib d ("Heading " ++ Py.str_of_Z level) = None ->
  add_heading lib filename text level fs
  = ("Heading '" ++ text ++ "' (level " ++ Py.str_of_Z level ++ ") added to '"
     ++ ensure_docx_extension filename ++ "'",
     <[resolve lib (ensure_docx_extension filename) :=
         render lib
           (with_paragraph lib d text ("Heading " ++ Py.str_of_Z level))]> fs).
Proof.
  intros Hlevel Hbase Hsave Htext Hstyle. unfold add_heading.
  replace ((level <? 1) || (level >? 6))%Z with false
    by (symmetry; apply orb_false_iff; rewrite Z.gtb_ltb; split; apply Z.ltb_ge; lia).
  unfold attempt. unfold bind at 1. unfold os_path_exists at 1.
  unfold bind at 1.
  pose proof (open_or_new_base fs (ensure_docx_extension filename) true d Hbase) as Ho.
  cbn [andb] in Ho. rewrite Ho.
  unfold bind at 1. unfold lift at 1. unfold library_add_heading.
  replace ((0 <=? level) && (level <=? 9))%Z with true
    by (symmetry; apply andb_true_iff; split; apply Z.leb_le; lia).
  replace (level =? 0)%Z with false by (symmetry; apply Z.eqb_neq; lia).
  rewrite (add_styled_paragraph_styled d text _ Htext Hstyle).
  unfold bind, Document_save, ret. rewrite Hsave. reflexivity.
Qed.

(** The properties [create_document] sets, where the library takes
    them. *)
Lemma set_if_given_title (value : option string) d :
  property_accepted lib value ->
  set_if_given (set_title lib) value d = Ok (when_given with_title value d).
Proof.
  unfold property_accepted, set_if_given, when_given, set_title.
  destruct value as [v|]; [|reflexivity].
  destruct (Py.truthy v); [|reflexivity].
  intros H. rewrite (H eq_refl). reflexivity.
Qed.

Lemma set_if_given_author (value : option string) d :
  property_accepted lib value ->
  set_if_given (set_author lib) value d = Ok (when_given with_author value d).
Proof.
  unfold property_accepted, set_if_given, when_given, set_author.
  destruct value as [v|]; [|reflexivity].
  destruct (Py.truthy v); [|reflexivity].
  intros H. rewrite (H eq_refl). reflexivity.
Qed.

End WriteBack.

(** X7.  [write_text] on a path that can be written, with a text the
    library takes, starts from the document in the file when [append]
    is true and the file holds one, and from the new document of the
    library otherwise (with [append] false whatever the file held is
    discarded); it saves that document with one more paragraph.  Read
    back, the text is the lines of the starting document followed by
    the new text as the library stores it, which adds no line when it
    has no character other than white space. *)
Theorem write_text_then_read {File : Type} (lib : Library File)
  (fs : gmap string File) (filename text : string) (append : bool) (d : Document) :
  let path := ensure_docx_extension filename in
  let fs' := <[resolve lib path := render lib (with_paragraph lib d text "Normal")]> fs in
  round_trips lib ->
  base_document lib fs path append d ->
  save_error lib fs path = None ->
  text_fault lib text = None ->
  write_text lib filename text append fs
  = ("Text " ++ (if append then "appended to" else "written to")
     ++ " '" ++ path ++ "' successfully", fs') /\
  read_document lib filename fs'
  = (Py.join nl (visible_lines d ++ line_of (paragraph_text_of lib text)), fs').
Proof.
  intros path fs' Hrt Hbase Hsave Htext. split.
  - apply write_text_saved; assumption.
  - unfold fs', path. rewrite (read_document_saved lib fs filename _ Hrt).
    rewrite visible_lines_with_paragraph. reflexivity.
Qed.

Lemma write_text_then_read_witness :
  write_text Demo.lib "a" ("Fresh" ++ Demo.carriage_return ++ "start") false
    (Demo.holding Demo.chapter)
  = ("Text written to 'a.docx' successfully",
     Demo.holding (Demo.with_line Demo.empty_document ("Fresh" ++ nl ++ "start"))) /\
  read_document Demo.lib "a"
    (Demo.holding (Demo.with_line Demo.empty_document ("Fresh" ++ nl ++ "start")))
  = ("Fresh" ++ nl ++ "start",
     Demo.holding (Demo.with_line Demo.empty_document ("Fresh" ++ nl ++ "start"))).
Proof.
  assert (Hrt : round_trips Demo.lib) by (intros d; reflexivity).
  destruct (write_text_then_read Demo.lib (Demo.holding Demo.chapter) "a"
              ("Fresh" ++ Demo.carriage_return ++ "start") false Demo.empty_document
              Hrt eq_refl eq_refl eq_refl)
    as [Hw Hr].
  split.
  - rewrite Hw. vm_compute. reflexivity.
  - vm_compute. reflexivity.
Defined.

(** X8.  Two appends in a row, on a path that can always be written,
    of texts the library takes, read back as the lines of the starting
    document followed by the first text and then the second, each as
    the library stores it: paragraphs keep the order in which they were
    written. *)
Theorem write_text_twice_then_read {File : Type} (lib : Library File)
  (fs : gmap string File) (filename t1 t2 : string) (d : Document) :
  let path := ensure_docx_extension filename in
  let fs1 := snd (write_text lib filename t1 true fs) in
  let fs2 := snd (write_text lib filename t2 true fs1) in
  round_trips lib ->
  base_document lib fs path true d ->
  (forall fs0, save_error lib fs0 path = None) ->
  text_fault lib t1 = None ->
  text_fault lib t2 = None ->
  fst (read_document lib filename fs2)
  = Py.join nl (visible_lines d ++ line_of (paragraph_text_of lib t1)
                ++ line_of (paragraph_text_of lib t2)).
Proof.
  intros path fs1 fs2 Hrt Hbase Hsave Ht1 Ht2.
  assert (E1 : fs1 = <[resolve lib path :=
                         render lib (with_paragraph lib d t1 "Normal")]> fs).
  { unfold fs1.
    rewrite (write_text_saved lib fs filename t1 true d Hbase (Hsave fs) Ht1).
    reflexivity. }
  assert (Hbase1 : base_document lib fs1 path true (with_paragraph lib d t1 "Normal")).
  { unfold base_document. rewrite E1, lookup_insert_eq. apply Hrt. }
  assert (E2 : fs2 = <[resolve lib path :=
                         render lib
                           (with_paragraph lib (with_paragraph lib d t1 "Normal")
                              t2 "Normal")]> fs1).
  { unfold fs2.
    rewrite (write_text_saved lib fs1 filename t2 true _ Hbase1 (Hsave fs1) Ht2).
    reflexivity. }
  rewrite E2. unfold path. rewrite (read_document_saved lib fs1 filename _ Hrt).
  cbn [fst]. rewrite !visible_lines_with_paragraph, <- app_assoc. reflexivity.
Qed.

Lemma write_text_twice_then_read_witness :
  fst (read_document Demo.lib "new"
         (snd (write_text Demo.lib "new" "second" true
                 (snd (write_text Demo.lib "new" "first" true ∅)))))
  = "first" ++ nl ++ "second".
Proof.
  assert (Hrt : round_trips Demo.lib) by (intros d; reflexivity).
  assert (Hbase : base_document Demo.lib ∅ (ensure_docx_extension "new") true
                    Demo.empty_document) by (vm_compute; reflexivity).
  rewrite (write_text_twice_then_read Demo.lib ∅ "new" "first" "second"
             Demo.empty_document Hrt Hbase (fun _ => eq_refl) eq_refl eq_refl).
  reflexivity.
Defined.

(** X9.  [add_heading] with a level from 1 to 6, on a path that can be
    written, with a text the library takes and on a document that has
    the style "Heading <level>", never meets the range check of the
    library: it saves the document of the file (the new one of the
    library when the file is absent) with one more paragraph of that
    style, and the heading reads back as the last line, as the library
    stores it. *)
Theorem add_heading_then_read {File : Type} (lib : Library File)
  (fs : gmap string File) (filename text : string) (level : Z) (d : Document) :
  let path := ensure_docx_extension filename in
  let d' := with_paragraph lib d text ("Heading " ++ Py.str_of_Z level) in
  let fs' := <[resolve lib path := render lib d']> fs in
  (1 <= level <= 6)%Z ->
  round_trips lib ->
  base_document lib fs path true d ->
  save_error lib fs path = None ->
  text_fault lib text = None ->
  style_fault lib d ("Heading " ++ Py.str_of_Z level) = None ->
  add_heading lib filename text level fs
  = ("Heading '" ++ text ++ "' (level " ++ Py.str_of_Z level ++ ") added to '"
     ++ path ++ "'", fs') /\
  read_document lib filename fs'
  = (Py.join nl (visible_lines d ++ line_of (paragraph_text_of lib text)), fs').
Proof.
  intros path d' fs' Hlevel Hrt Hbase Hsave Htext Hstyle. split.
  - apply add_heading_saved; assumption.
  - unfold fs', path. rewrite (read_document_saved lib fs filename _ Hrt).
    unfold d'. rewrite visible_lines_with_paragraph. reflexivity.
Qed.

Lemma add_heading_then_read_witness :
  add_heading Demo.lib "a" "Section 1.1" 2 (Demo.holding Demo.blanks)
  = ("Heading 'Section 1.1' (level 2) added to 'a.docx'",
     Demo.holding (with_paragraph Demo.lib Demo.blanks "Section 1.1" "Heading 2")) /\
  read_document Demo.lib "a"
    (Demo.holding (with_paragraph Demo.lib Demo.blanks "Section 1.1" "Heading 2"))
  = ("Body." ++ nl ++ "Section 1.1",
     Demo.holding (with_paragraph Demo.lib Demo.blanks "Section 1.1" "Heading 2")).
Proof.
  assert (Hrt : round_trips Demo.lib) by (intros d; reflexivity).
  assert (Hl : (1 <= 2 <= 6)%Z) by lia.
  destruct (add_heading_then_read Demo.lib (Demo.holding Demo.blanks) "a"
              "Section 1.1" 2 Demo.blanks Hl Hrt eq_refl eq_refl eq_refl eq_refl)
    as [Hh Hr].
  split.
  - rewrite Hh. vm_compute. reflexivity.
  - vm_compute. reflexivity.
Defined.

(** X10.  [copy_document] of a source that holds a document to a target
    that is absent and can be written saves that document under the
    target, leaves the source file as it was, and the copy reads back as
    the source does. *)
Theorem copy_document_then_read {File : Type} (lib : Library File)
  (fs : gmap string File) (source_filename target_filename : string)
  (f : File) (d : Document) :
  let source := ensure_docx_extension source_filename in
  let target := ensure_docx_extension target_filename in
  let fs' := <[resolve lib target := render lib d]> fs in
  round_trips lib ->
  fs !! resolve lib source = Some f ->
  parse lib f = Ok d ->
  fs !! resolve lib target = None ->
  save_error lib fs target = None ->
  copy_document lib source_filename target_filename fs
  = ("Document copied successfully from '" ++ source ++ "' to '" ++ target ++ "'",
     fs') /\
  fs' !! resolve lib source = Some f /\
  fst (read_document lib target_filename fs')
  = fst (read_document lib source_filename fs).
Proof.
  intros source target fs' Hrt Hs Hd Ht Hsave. split; [|split].
  - unfold copy_document. fold source target.
    rewrite (check_file_exists_Some lib fs source f Hs),
            (check_file_exists_None lib fs target Ht).
    cbn [negb]. unfold attempt, bind, Document_open, Document_save, ret.
    rewrite Hs, Hd, Hsave. reflexivity.
  - unfold fs'. rewrite lookup_insert_ne; [exact Hs|].
    intros E. rewrite E, Hs in Ht. discriminate.
  - unfold fs', target. rewrite (read_document_saved lib fs target_filename d Hrt).
    rewrite (read_document_opened lib fs source_filename f d Hs Hd). reflexivity.
Qed.

Lemma copy_document_then_read_witness :
  copy_document Demo.lib "a" "copy" (Demo.holding Demo.chapter)
  = ("Document copied successfully from 'a.docx' to 'copy.docx'",
     <["copy.docx" := Demo.Docx Demo.chapter]> (Demo.holding Demo.chapter)) /\
  fst (read_document Demo.lib "copy"
         (<["copy.docx" := Demo.Docx Demo.chapter]> (Demo.holding Demo.chapter)))
  = "Chapter 1" ++ nl ++ "Body.".
Proof.
  assert (Hrt : round_trips Demo.lib) by (intros d; reflexivity).
  destruct (copy_document_then_read Demo.lib (Demo.holding Demo.chapter) "a" "copy"
              (Demo.Docx Demo.chapter) Demo.chapter Hrt eq_refl eq_refl eq_refl eq_refl)
    as [Hc [_ Hr]].
  split; [exact Hc|].
  refine (eq_trans Hr _). reflexivity.
Defined.

Lemma visible_lines_when_given (set : Document -> string -> Document)
  (v : option string) (d : Document) :
  (forall d0 s, body (set d0 s) = body d0) ->
  visible_lines (when_given set v d) = visible_lines d.
Proof.
  intros Hset. unfold visible_lines, paragraphs, when_given.
  destruct v as [s|]; [|reflexivity].
  destruct (Py.truthy s); [rewrite Hset|]; reflexivity.
Qed.

(** X11.  [create_document] on a path that can be written, with a title
    and an author that the library takes as core properties when they
    are given and not empty, never looks at what the path holds: it
    saves the new document of the library, with the title and the
    author set when they are given and not empty, over whatever was
    there; the new file reads back as the new document of the library
    does, whatever the title and the author. *)
Theorem create_document_then_read {File : Type} (lib : Library File)
  (fs : gmap string File) (filename : string) (title author : option string) :
  let path := ensure_docx_extension filename in
  let d := when_given with_author author (when_given with_title title (blank lib)) in
  let fs' := <[resolve lib path := render lib d]> fs in
  round_trips lib ->
  save_error lib fs path = None ->
  property_accepted lib title ->
  property_accepted lib author ->
  create_document lib filename title author fs
  = ("Document '" ++ path ++ "' created successfully", fs') /\
  read_document lib filename fs' = (Py.join nl (visible_lines (blank lib)), fs').
Proof.
  intros path d fs' Hrt Hsave Htitle Hauthor. split.
  - unfold create_document, attempt. fold path.
    unfold bind at 1. unfold Document_new, ret at 1.
    unfold bind at 1. unfold lift at 1.
    rewrite (set_if_given_title lib title (blank lib) Htitle).
    unfold bind at 1. unfold lift at 1.
    rewrite (set_if_given_author lib author _ Hauthor).
    unfold bind, Document_save, ret. rewrite Hsave. reflexivity.
  - unfold fs', path. rewrite (read_document_saved lib fs filename d Hrt).
    unfold d. rewrite !visible_lines_when_given; reflexivity.
Qed.

Lemma create_document_then_read_witness :
  create_document Demo.lib "a" (Some "Plan") (Some "") (Demo.holding Demo.chapter)
  = ("Document 'a.docx' created successfully",
     Demo.holding (with_title Demo.empty_document "Plan")) /\
  read_document Demo.lib "a" (Demo.holding (with_title Demo.empty_document "Plan"))
  = ("", Demo.holding (with_title Demo.empty_document "Plan")).
Proof.
  assert (Hrt : round_trips Demo.lib) by (intros d; reflexivity).
  assert (Ht : property_accepted Demo.lib (Some "Plan")) by (intros _; reflexivity).
  assert (Ha : property_accepted Demo.lib (Some "")) by (intros H; discriminate H).
  destruct (create_document_then_read Demo.lib (Demo.holding Demo.chapter) "a"
              (Some "Plan") (Some "") Hrt eq_refl Ht Ha) as [Hc Hr].
  split.
  - rewrite Hc. vm_compute. reflexivity.
  - vm_compute. reflexivity.
Defined.

(** ** Where the export leaves the PDF *)

Section ExportOutcome.

Context {File : Type} (lib : Library File).
Implicit Types (fs : gmap string File).

(** The call up to the end of a conversion that exits with zero. *)
Lemma export_to_pdf_converted fs source_filename target_filename f result out :
  let source_path := ensure_docx_extension source_filename in
  let target_path := export_target_path source_path target_filename in
  let output_dir := Py.or_else (PosixPath.dirname target_path) "." in
  let converted_path := export_converted_path source_path output_dir in
  let fs1 :=
    match out with
    | Some pdf => <[resolve lib converted_path := pdf]> fs
    | None => fs
    end in
  fs !! resolve lib source_path = Some f ->
  soffice lib (Some f) = Ok (result, out) ->
  returncode result = 0%Z ->
  export_to_pdf lib source_filename target_filename fs
  = if String.eqb converted_path target_path then
      ("Document converted to PDF: '" ++ target_path ++ "'", fs1)
    else if check_file_exists lib fs1 target_path then
      ("Error: Target file '" ++ target_path ++ "' already exists", fs1)
    else
      match fs1 !! resolve lib converted_path with
      | Some pdf =>
          ("Document converted to PDF: '" ++ target_path ++ "'",
           <[resolve lib target_path := pdf]> (delete (resolve lib converted_path) fs1))
      | None =>
          ("Error during PDF conversion: "
           ++ no_such_file_to_rename converted_path target_path, fs1)
      end.
Proof.
  intros source_path target_path output_dir converted_path fs1 Hf Hrun Hcode.
  unfold export_to_pdf. fold source_path target_path output_dir.
  rewrite (check_file_exists_Some lib fs source_path f Hf). cbn [negb].
  unfold attempt, export_to_pdf_body. unfold bind at 1.
  unfold subprocess_run_soffice. rewrite Hf, Hrun.
  fold converted_path.
  destruct out as [pdf|]; subst fs1; rewrite Hcode; cbn [Z.eqb negb];
    destruct (String.eqb converted_path target_path); cbn [negb];
    try reflexivity;
    unfold bind, os_path_exists, os_rename, ret;
    match goal with
    | |- context [check_file_exists lib ?m target_path] =>
        destruct (check_file_exists lib m target_path); try reflexivity;
        destruct (m !! resolve lib converted_path); reflexivity
    end.
Qed.

End ExportOutcome.

(** X12.  When the path the converter writes to and the target path are
    different strings that name the same file (as [./name.pdf] and
    [name.pdf] do, which is what a source without a directory and no
    target give), a conversion that exits with zero and produces the PDF
    is followed by the already-exists error: the tool finds at the
    target the file the converter has just written, and the PDF stays
    there. *)
Theorem export_to_pdf_same_file_two_names {File : Type} (lib : Library File)
  (fs : gmap string File) (source_filename : string)
  (target_filename : option string) (f pdf : File) (result : Completed) :
  let source_path := ensure_docx_extension source_filename in
  let target_path := export_target_path source_path target_filename in
  let output_dir := Py.or_else (PosixPath.dirname target_path) "." in
  let converted_path := export_converted_path source_path output_dir in
  fs !! resolve lib source_path = Some f ->
  soffice lib (Some f) = Ok (result, Some pdf) ->
  returncode result = 0%Z ->
  converted_path <> target_path ->
  resolve lib converted_path = resolve lib target_path ->
  export_to_pdf lib source_filename target_filename fs
  = ("Error: Target file '" ++ target_path ++ "' already exists",
     <[resolve lib target_path := pdf]> fs).
Proof.
  intros source_path target_path output_dir converted_path Hf Hrun Hcode Hne Hsame.
  rewrite (export_to_pdf_converted lib fs source_filename target_filename
             f result (Some pdf) Hf Hrun Hcode).
  fold source_path target_path output_dir converted_path.
  apply String.eqb_neq in Hne. rewrite Hne, Hsame.
  rewrite (check_file_exists_Some lib _ target_path pdf) by apply lookup_insert_eq.
  reflexivity.
Qed.

Lemma export_to_pdf_same_file_two_names_witness :
  export_converted_path "a.docx" "." = "./a.pdf" /\
  export_to_pdf Demo.lib "a" None (Demo.holding Demo.report)
  = ("Error: Target file 'a.pdf' already exists",
     <["a.pdf" := Demo.Pdf Demo.report]> (Demo.holding Demo.report)).
Proof.
  split; [reflexivity|].
  assert (Hne : export_converted_path (ensure_docx_extension "a")
                  (Py.or_else
                     (PosixPath.dirname
                        (export_target_path (ensure_docx_extension "a") None)) ".")
                <> export_target_path (ensure_docx_extension "a") None)
    by (vm_compute; discriminate).
  exact (export_to_pdf_same_file_two_names Demo.lib (Demo.holding Demo.report) "a" None
           (Demo.Docx Demo.report) (Demo.Pdf Demo.report)
           {| returncode := 0; stdout := ""; stderr := "" |}
           eq_refl eq_refl eq_refl Hne eq_refl).
Defined.

(** X13.  When the target names another file than the one the converter
    writes, and no file is at the target, a conversion that exits with
    zero and produces the PDF ends with the PDF at the target and
    nothing left at the path the converter wrote to. *)
Theorem export_to_pdf_moves_output {File : Type} (lib : Library File)
  (fs : gmap string File) (source_filename : string)
  (target_filename : option string) (f pdf : File) (result : Completed) :
  let source_path := ensure_docx_extension source_filename in
  let target_path := export_target_path source_path target_filename in
  let output_dir := Py.or_else (PosixPath.dirname target_path) "." in
  let converted_path := export_converted_path source_path output_dir in
  let fs' := snd (export_to_pdf lib source_filename target_filename fs) in
  fs !! resolve lib source_path = Some f ->
  soffice lib (Some f) = Ok (result, Some pdf) ->
  returncode result = 0%Z ->
  resolve lib converted_path <> resolve lib target_path ->
  fs !! resolve lib target_path = None ->
  fst (export_to_pdf lib source_filename target_filename fs)
  = "Document converted to PDF: '" ++ target_path ++ "'" /\
  fs' !! resolve lib target_path = Some pdf /\
  fs' !! resolve lib converted_path = None.
Proof.
  intros source_path target_path output_dir converted_path fs' Hf Hrun Hcode Hne Ht.
  unfold fs'.
  rewrite (export_to_pdf_converted lib fs source_filename target_filename
             f result (Some pdf) Hf Hrun Hcode).
  fold source_path target_path output_dir converted_path.
  assert (Hstr : String.eqb converted_path target_path = false).
  { apply String.eqb_neq. intros E. apply Hne. rewrite E. reflexivity. }
  rewrite Hstr.
  rewrite (check_file_exists_None lib _ target_path)
    by (rewrite lookup_insert_ne by exact Hne; exact Ht).
  rewrite lookup_insert_eq. cbn [fst snd].
  split; [reflexivity|]. split.
  - apply lookup_insert_eq.
  - rewrite lookup_insert_ne by (intros E; apply Hne; symmetry; exact E).
    apply lookup_delete_eq.
Qed.

Lemma export_to_pdf_moves_output_witness :
  fst (export_to_pdf Demo.lib "a" (Some "out") (Demo.holding Demo.report))
  = "Document converted to PDF: 'out.pdf'" /\
  snd (export_to_pdf Demo.lib "a" (Some "out") (Demo.holding Demo.report)) !! "out.pdf"
  = Some (Demo.Pdf Demo.report) /\
  snd (export_to_pdf Demo.lib "a" (Some "out") (Demo.holding Demo.report)) !! "a.pdf"
  = None.
Proof.
  assert (Hne : resolve Demo.lib
                  (export_converted_path (ensure_docx_extension "a")
                     (Py.or_else
                        (PosixPath.dirname
                           (export_target_path (ensure_docx_extension "a") (Some "out")))
                        "."))
                <> resolve Demo.lib
                     (export_target_path (ensure_docx_extension "a") (Some "out")))
    by (vm_compute; discriminate).
  exact (export_to_pdf_moves_output Demo.lib (Demo.holding Demo.report) "a" (Some "out")
           (Demo.Docx Demo.report) (Demo.Pdf Demo.report)
           {| returncode := 0; stdout := ""; stderr := "" |}
           eq_refl eq_refl eq_refl Hne eq_refl).
Defined.

(** X14.  When the target path is the path the converter writes to, the
    tool reports success after any conversion that exits with zero
    without looking for the PDF: if the converter wrote nothing and no
    file was at the target, success is reported and there is no file at
    the target. *)
Theorem export_to_pdf_success_without_file {File : Type} (lib : Library File)
  (fs : gmap string File) (source_filename : string)
  (target_filename : option string) (f : File) (result : Completed) :
  let source_path := ensure_docx_extension source_filename in
  let target_path := export_target_path source_path target_filename in
  let output_dir := Py.or_else (PosixPath.dirname target_path) "." in
  fs !! resolve lib source_path = Some f ->
  soffice lib (Some f) = Ok (result, None) ->
  returncode result = 0%Z ->
  export_converted_path source_path output_dir = target_path ->
  fs !! resolve lib target_path = None ->
  export_to_pdf lib source_filename target_filename fs
  = ("Document converted to PDF: '" ++ target_path ++ "'", fs) /\
  check_file_exists lib
    (snd (export_to_pdf lib source_filename target_filename fs)) target_path = false.
Proof.
  intros source_path target_path output_dir Hf Hrun Hcode Hsame Ht.
  rewrite (export_to_pdf_converted lib fs source_filename target_filename
             f result None Hf Hrun Hcode).
  fold source_path target_path output_dir. rewrite Hsame, String.eqb_refl.
  split; [reflexivity|]. cbn [snd].
  apply check_file_exists_None, Ht.
Qed.

Lemma export_to_pdf_success_without_file_witness :
  export_to_pdf Demo.silent_lib "d/a" None Demo.in_directory
  = ("Document converted to PDF: 'd/a.pdf'", Demo.in_directory) /\
  check_file_exists Demo.silent_lib
    (snd (export_to_pdf Demo.silent_lib "d/a" None Demo.in_directory)) "d/a.pdf"
  = false.
Proof.
  exact (export_to_pdf_success_without_file Demo.silent_lib Demo.in_directory "d/a" None
           (Demo.Docx Demo.empty_document)
           {| returncode := 0; stdout := ""; stderr := "" |}
           eq_refl eq_refl eq_refl eq_refl eq_refl).
Defined.

Lemma rfind_head (c : ascii) (s : string) : Py.rfind c (String c s) <> None.
Proof.
  cbn [Py.rfind]. destruct (Py.rfind c s); [discriminate|].
  rewrite Ascii.eqb_refl. discriminate.
Qed.

Lemma rfind_tail (c b : ascii) (s : string) :
  Py.rfind c s <> None -> Py.rfind c (String b s) <> None.
Proof.
  intros H. cbn [Py.rfind]. destruct (Py.rfind c s); [discriminate|congruence].
Qed.

(** X15.  For a target path without a directory part (the default
    target of a source given without a directory is one), the path the
    tool expects the converter to write to is never the target path: it
    has a separator, from the output directory [.] or from the name
    itself.  Such a call always goes through the existence check of the
    target and the rename. *)
Theorem export_converted_path_differs (source_path target_path : string) :
  Py.rfind PosixPath.sep target_path = None ->
  Py.or_else (PosixPath.dirname target_path) "." = "." /\
  export_converted_path source_path
    (Py.or_else (PosixPath.dirname target_path) ".") <> target_path.
Proof.
  intros Hnone.
  assert (Hdir : Py.or_else (PosixPath.dirname target_path) "." = ".").
  { unfold PosixPath.dirname, PosixPath.after_sep. rewrite Hnone.
    replace (Py.take 0 target_path) with "" by (destruct target_path; reflexivity).
    reflexivity. }
  split; [exact Hdir|]. rewrite Hdir.
  unfold export_converted_path, PosixPath.join.
  set (b := fst (PosixPath.splitext (PosixPath.basename source_path)) ++ ".pdf").
  intros E.
  assert (Hsome : Py.rfind PosixPath.sep target_path <> None);
    [|exact (Hsome Hnone)].
  rewrite <- E.
  destruct (Py.startswith "/" b) eqn:Hb.
  - apply startswith_spec in Hb as [t ->]. apply rfind_head.
  - cbn [Py.truthy negb Py.endswith String.eqb Ascii.eqb Bool.eqb orb].
    change ("." ++ "/" ++ b) with (String "."%char (String PosixPath.sep b)).
    apply rfind_tail, rfind_head.
Qed.

Lemma export_converted_path_differs_witness :
  Py.or_else (PosixPath.dirname "report.pdf") "." = "." /\
  export_converted_path "report.docx"
    (Py.or_else (PosixPath.dirname "report.pdf") ".") <> "report.pdf".
Proof.
  exact (export_converted_path_differs "report.docx" "report.pdf" eq_refl).
Defined.

(** ** Replacing a string by itself *)

Lemma length_append (s t : string) :
  String.length (s ++ t) = String.length s + String.length t.
Proof.
  induction s as [|c s IH]; [reflexivity|].
  rewrite append_cons. cbn [String.length]. rewrite IH. reflexivity.
Qed.

Lemma interleave_empty (s : string) : Py.interleave "" s = s.
Proof.
  induction s as [|c s IH]; [reflexivity|].
  cbn [Py.interleave]. rewrite append_empty_l, IH. reflexivity.
Qed.

Lemma replace_same (s x : string) : Py.replace s x x = s.
Proof.
  destruct (String.eqb_spec x "") as [->|Hne]; [apply interleave_empty|].
  remember (String.length s) as n eqn:Hn.
  revert s Hn. induction n as [n IH] using lt_wf_ind. intros s Hn.
  destruct s as [|c s].
  - destruct x; [congruence|reflexivity].
  - destruct (Py.startswith x (String c s)) eqn:E.
    + apply startswith_spec in E as [t E]. rewrite E.
      rewrite replace_match by exact Hne. f_equal.
      apply (IH (String.length t)); [|reflexivity].
      rewrite Hn, E, length_append.
      destruct x; [congruence|]. cbn [String.length]. lia.
    + rewrite replace_step by assumption. f_equal.
      apply (IH (String.length s)); [|reflexivity].
      rewrite Hn. cbn [String.length]. lia.
Qed.

(** X16.  [replace_text] with the same string to find and to put in
    its place changes no text, and still counts and saves: when the
    string occurs in a run of a visited paragraph, and the library
    stores the texts of the runs that hold the string as given, the
    tool reports a positive number of replacements and writes the
    document it read back to the file. *)
Theorem replace_text_by_itself {File : Type} (lib : Library File)
  (fs : gmap string File) (filename x : string) (f : File) (doc : Document)
  (p : Paragraph) (r : Run) :
  let path := ensure_docx_extension filename in
  fs !! resolve lib path = Some f ->
  parse lib f = Ok doc ->
  save_error lib fs path = None ->
  p ∈ visited_paragraphs doc -> r ∈ runs p ->
  Py.contains x (text r) = true ->
  (forall q s, q ∈ visited_paragraphs doc -> s ∈ runs q ->
     Py.contains x (text s) = true -> stores_as_given lib (text s)) ->
  exists n,
    replace_in_document lib x x doc = Ok (doc, n) /\
    0 < n /\
    replace_text lib filename x x fs
    = ("Replaced " ++ Py.str_of_nat n
       ++ " occurrence(s) of '" ++ x ++ "' with '" ++ x ++ "'",
       <[resolve lib path := render lib doc]> fs).
Proof.
  intros path Hf Hdoc Hsave Hp Hr Hfound Hgiven.
  exists (sum_list_with (paragraph_gain lib x x) (visited_paragraphs doc)).
  assert (Hsame : replace_in_document lib x x doc
                  = Ok (doc, sum_list_with (paragraph_gain lib x x)
                               (visited_paragraphs doc))).
  { apply replace_in_document_same. intros q s Hq Hs Hc.
    rewrite replace_same. exact (Hgiven q s Hq Hs Hc). }
  assert (Hpos : 0 < sum_list_with (paragraph_gain lib x x) (visited_paragraphs doc)).
  { pose proof (sum_list_with_in p (paragraph_gain lib x x) _ Hp) as Hle.
    assert (Hrun : 0 < run_gain lib x x r).
    { unfold run_gain. rewrite Hfound, replace_same.
      rewrite (proj2 (Hgiven p r Hp Hr Hfound)).
      apply count_contains, Hfound. }
    assert (Hpar : run_gain lib x x r <= paragraph_gain lib x x p).
    { unfold paragraph_gain. rewrite (contains_paragraph_text x p r Hr Hfound).
      apply sum_list_with_in, Hr. }
    lia. }
  split; [exact Hsame|]. split; [exact Hpos|].
  rewrite (replace_text_opened lib fs filename x x f doc Hf Hdoc), Hsame. fold path.
  apply Nat.ltb_lt in Hpos. rewrite Hpos, Hsave. reflexivity.
Qed.

Lemma replace_text_by_itself_witness :
  exists n,
    replace_in_document Demo.lib "t" "t" Demo.merged = Ok (Demo.merged, n) /\
    0 < n /\
    replace_text Demo.lib "a" "t" "t" (Demo.holding Demo.merged)
    = ("Replaced " ++ Py.str_of_nat n ++ " occurrence(s) of 't' with 't'",
       <[resolve Demo.lib (ensure_docx_extension "a") := render Demo.lib Demo.merged]>
         (Demo.holding Demo.merged)).
Proof.
  assert (Hgiven :
            Forall (fun q =>
                      Forall (fun s => Py.contains "t" (text s) = true ->
                                       stores_as_given Demo.lib (text s))
                        (runs q))
              (visited_paragraphs Demo.merged)) by by_evaluation.
  apply (replace_text_by_itself Demo.lib (Demo.holding Demo.merged) "a" "t"
           (Demo.Docx Demo.merged) Demo.merged
           (Demo.para [Demo.plain "t"]) (Demo.plain "t")
           eq_refl eq_refl eq_refl).
  - left.
  - left.
  - reflexivity.
  - exact (on_visited_runs _ _ Hgiven).
Defined.

(** ** The target path, where the code gets it right *)

(** X17.  A target that is given is kept when it ends with [.pdf] in any
    letter case and gets [.pdf] appended otherwise; either way the
    result ends with [.pdf] once lower-cased, and giving the result as
    the target again changes nothing. *)
Theorem export_target_path_given_normal_form (source_path target : string) :
  let normal := export_target_path source_path (Some target) in
  normal = (if Py.endswith (Py.lower target) ".pdf" then target else target ++ ".pdf") /\
  Py.endswith (Py.lower normal) ".pdf" = true /\
  export_target_path source_path (Some normal) = normal.
Proof.
  intros normal.
  destruct (export_target_path_given source_path target) as [Hends Hform].
  fold normal in Hends, Hform.
  split; [exact Hform|]. split; [exact Hends|].
  unfold export_target_path at 1. rewrite Hends. reflexivity.
Qed.

(** X18.  For a source name in which [.docx] occurs nowhere, or only as
    its ending, [export_to_pdf] without a target takes as target the
    name with [.pdf] in place of the extension. *)
Theorem export_target_path_default_swaps_extension (stem : string) :
  Py.contains ".docx" stem = false ->
  export_target_path (ensure_docx_extension stem) None = stem ++ ".pdf" /\
  export_target_path (ensure_docx_extension (stem ++ ".docx")) None = stem ++ ".pdf".
Proof.
  intros H.
  assert (Hlacks : Py.endswith stem ".docx" = false).
  { destruct (Py.endswith stem ".docx") eqn:E; [|reflexivity].
    apply endswith_spec in E as [a E].
    assert (Hc : Py.contains ".docx" stem = true)
      by (apply contains_spec; exists a, ""; rewrite append_empty_r; exact E).
    rewrite Hc in H. discriminate. }
  split.
  - unfold ensure_docx_extension. rewrite Hlacks. cbn [negb].
    apply export_target_path_default, H.
  - unfold ensure_docx_extension. rewrite endswith_app. cbn [negb].
    apply export_target_path_default, H.
Qed.

Lemma export_target_path_default_swaps_extension_witness :
  export_target_path (ensure_docx_extension "reports/q3") None = "reports/q3.pdf" /\
  export_target_path (ensure_docx_extension ("reports/q3" ++ ".docx")) None
  = "reports/q3.pdf".
Proof.
  exact (export_target_path_default_swaps_extension "reports/q3" eq_refl).
Defined.

(** ** A file that is not a document *)

(** X19.  On a file the library cannot open, every tool that loads the
    document returns its own error string with the message of the
    library and leaves the file system as it was: [read_document],
    [get_document_info], [write_text] when appending, [add_heading] with
    a level from 1 to 6, [replace_text], and [copy_document] from that
    file to an absent target. *)
Theorem unreadable_document_is_reported {File : Type} (lib : Library File)
  (fs : gmap string File) (filename text other : string) (level : Z)
  (f : File) (e : string) :
  let path := ensure_docx_extension filename in
  fs !! resolve lib path = Some f ->
  parse lib f = Raise e ->
  (1 <= level <= 6)%Z ->
  fs !! resolve lib (ensure_docx_extension other) = None ->
  read_document lib filename fs = ("Error reading document: " ++ e, fs) /\
  get_document_info lib filename fs = ("Error getting document info: " ++ e, fs) /\
  write_text lib filename text true fs = ("Error writing to document: " ++ e, fs) /\
  add_heading lib filename text level fs = ("Error adding heading: " ++ e, fs) /\
  replace_text lib filename text other fs = ("Error replacing text: " ++ e, fs) /\
  copy_document lib filename other fs = ("Error copying document: " ++ e, fs).
Proof.
  intros path Hf He Hlevel Hother.
  pose proof (check_file_exists_Some lib fs path f Hf) as Hfound.
  repeat split.
  - unfold read_document. fold path. rewrite Hfound. cbn [negb].
    unfold attempt, bind, Document_open. rewrite Hf, He. reflexivity.
  - unfold get_document_info. fold path. rewrite Hfound. cbn [negb].
    unfold attempt, bind, Document_open. rewrite Hf, He. reflexivity.
  - unfold write_text, attempt, write_text_body. fold path.
    unfold bind, os_path_exists. rewrite Hfound. cbn [andb].
    unfold Document_open. rewrite Hf, He. reflexivity.
  - unfold add_heading. fold path.
    replace ((level <? 1) || (level >? 6))%Z with false
      by (symmetry; apply orb_false_iff; rewrite Z.gtb_ltb; split; apply Z.ltb_ge; lia).
    unfold attempt, bind, os_path_exists. rewrite Hfound.
    unfold Document_open. rewrite Hf, He. reflexivity.
  - unfold replace_text. fold path. rewrite Hfound. cbn [negb].
    unfold attempt, replace_text_body, bind, Document_open. rewrite Hf, He.
    reflexivity.
  - unfold copy_document. fold path. rewrite Hfound.
    rewrite (check_file_exists_None lib fs _ Hother). cbn [negb].
    unfold attempt, bind, Document_open. rewrite Hf, He. reflexivity.
Qed.

Lemma unreadable_document_is_reported_witness :
  read_document Demo.lib "b" Demo.target_only
  = ("Error reading document: File is not a zip file", Demo.target_only) /\
  get_document_info Demo.lib "b" Demo.target_only
  = ("Error getting document info: File is not a zip file", Demo.target_only) /\
  write_text Demo.lib "b" "more" true Demo.target_only
  = ("Error writing to document: File is not a zip file", Demo.target_only) /\
  add_heading Demo.lib "b" "more" 3 Demo.target_only
  = ("Error adding heading: File is not a zip file", Demo.target_only) /\
  replace_text Demo.lib "b" "more" "c" Demo.target_only
  = ("Error replacing text: File is not a zip file", Demo.target_only) /\
  copy_document Demo.lib "b" "c" Demo.target_only
  = ("Error copying document: File is not a zip file", Demo.target_only).
Proof.
  assert (Hl : (1 <= 3 <= 6)%Z) by lia.
  exact (unreadable_document_is_reported Demo.lib Demo.target_only "b" "more" "c" 3
           Demo.Junk "File is not a zip file" eq_refl eq_refl Hl eq_refl).
Defined.

(** ** Strings the library refuses *)



(** X20.  A text the library refuses is reported, and nothing is
    written: [write_text] and [add_heading] with a non-empty text that a
    run cannot hold, and [create_document] with a non-empty title that
    a core property cannot hold, return their error prefix followed by
    the message of the library and leave the file system as it was. *)
Theorem refused_text_is_reported {File : Type} (lib : Library File)
  (fs : gmap string File) (filename text e : string) (d : Document) :
  let path := ensure_docx_extension filename in
  Py.truthy text = true ->
  (text_fault lib text = Some e ->
   forall append, base_document lib fs path append d ->
     write_text lib filename text append fs
     = ("Error writing to document: " ++ e, fs)) /\
  (text_fault lib text = Some e ->
   forall level, (1 <= level <= 6)%Z -> base_document lib fs path true d ->
     add_heading lib filename text level fs = ("Error adding heading: " ++ e, fs)) /\
  (property_fault lib text = Some e ->
   forall author,
     create_document lib filename (Some text) author fs
     = ("Error creating document: " ++ e, fs)).
Proof.
  intros path Htruthy. subst path.
  assert (Hadd : text_fault lib text = Some e ->
                 forall sty, add_styled_paragraph lib d text sty = Raise e).
  { intros Hfault sty. unfold add_styled_paragraph, assign_text.
    rewrite Htruthy, Hfault. reflexivity. }
  split; [|split].
  - intros Hfault append Hbase. unfold write_text, attempt, write_text_body.
    unfold bind at 1. unfold os_path_exists at 1.
    unfold bind at 1. rewrite (open_or_new_base lib _ _ _ _ Hbase).
    unfold bind at 1. unfold lift at 1. unfold add_paragraph.
    rewrite (Hadd Hfault None). reflexivity.
  - intros Hfault level Hlevel Hbase. unfold add_heading.
    replace ((level <? 1) || (level >? 6))%Z with false
      by (symmetry; apply orb_false_iff; rewrite Z.gtb_ltb; split; apply Z.ltb_ge; lia).
    unfold attempt. unfold bind at 1. unfold os_path_exists at 1.
    unfold bind at 1.
    pose proof (open_or_new_base lib fs _ true d Hbase) as Ho.
    cbn [andb] in Ho. rewrite Ho.
    unfold bind at 1. unfold lift at 1. unfold library_add_heading.
    replace ((0 <=? level) && (level <=? 9))%Z with true
      by (symmetry; apply andb_true_iff; split; apply Z.leb_le; lia).
    rewrite (Hadd Hfault). reflexivity.
  - intros Hfault author0. unfold create_document, attempt.
    unfold bind at 1. unfold Document_new, ret at 1.
    unfold bind at 1. unfold lift at 1. unfold set_if_given at 1, set_title.
    rewrite Htruthy, Hfault. reflexivity.
Qed.

Lemma refused_text_is_reported_witness :
  write_text Demo.lib "a" ("a" ++ Demo.start_of_heading ++ "b") true
    (Demo.holding Demo.report)
  = ("Error writing to document: " ++ Demo.not_xml, Demo.holding Demo.report) /\
  add_heading Demo.lib "a" ("a" ++ Demo.start_of_heading ++ "b") 1
    (Demo.holding Demo.report)
  = ("Error adding heading: " ++ Demo.not_xml, Demo.holding Demo.report) /\
  create_document Demo.lib "a" (Some ("a" ++ Demo.start_of_heading ++ "b")) None
    (Demo.holding Demo.report)
  = ("Error creating document: " ++ Demo.not_xml, Demo.holding Demo.report).
Proof.
  destruct (refused_text_is_reported Demo.lib (Demo.holding Demo.report) "a"
              ("a" ++ Demo.start_of_heading ++ "b") Demo.not_xml Demo.report eq_refl)
    as (Hw & Hh & Hc).
  split; [|split].
  - apply (Hw eq_refl true). reflexivity.
  - apply (Hh eq_refl 1%Z); [lia|reflexivity].
  - apply (Hc eq_refl None).
Defined.



